(** * Smart home controller: device state, power model, history buffers

    A shallow embedding of [smart_home_controller.py].  The program is one
    function [main(page)] whose nested functions close over three mutable
    objects ([devices], [logs], [power_history]) and two [nonlocal]
    variables ([log_table], [power_chart]).  Here the closure becomes an
    explicit [State] record threaded through a state-and-exception monad,
    Python values become a small sum type, dicts become [gmap]s with
    string keys, and Python floats are IEEE binary64 ([PrimFloat]). *)

From Stdlib Require Import ZArith List Bool Lia.
From Stdlib Require Import Floats.PrimFloat Floats.SpecFloat Floats.FloatOps.
From stdpp Require Import gmap strings list pretty.

Local Open Scope string_scope.

(** ** Python values *)

Inductive PyVal : Type :=
| VNone
| VBool (b : bool)
| VInt (z : Z)
| VFloat (f : float)
| VStr (s : string).

(** A dict whose keys are strings and whose values are scalars: the shape
    of every dict the program builds. *)
Abbreviation PyDict := (gmap string PyVal).

(** What can travel over the pub/sub channel: [handle_message] first asks
    [isinstance(msg, dict)]. *)
Inductive PyObj : Type :=
| OVal (v : PyVal)
| ODict (d : PyDict).

Inductive PyExc : Type :=
| KeyError (k : string)
| TypeError
| ValueError
| OverflowError
| WidgetError.

Inductive result (A : Type) : Type :=
| Ok (a : A)
| Raise (e : PyExc).
Arguments Ok {A} a.
Arguments Raise {A} e.

(** [bool(v)] *)
Definition truthy (v : PyVal) : bool :=
  match v with
  | VNone => false
  | VBool b => b
  | VInt z => negb (z =? 0)%Z
  | VFloat f => negb (PrimFloat.eqb f 0%float)
  | VStr s => negb (String.eqb s "")
  end.

(** [d[k]] on a dict *)
Definition getitem (d : PyDict) (k : string) : result PyVal :=
  match d !! k with
  | Some v => Ok v
  | None => Raise (KeyError k)
  end.

(** [d.get(k) == s] for a string literal [s] *)
Definition get_eq_str (d : PyDict) (k s : string) : bool :=
  match d !! k with
  | Some (VStr s') => String.eqb s' s
  | _ => false
  end.

(** ** Numbers *)

(** [float(z)] for a Python int: round to nearest even, [OverflowError]
    when the result does not fit a double. *)
Definition py_float_of_int (z : Z) : result float :=
  match binary_normalize FloatOps.prec FloatOps.emax z 0 false with
  | S754_infinity _ => Raise OverflowError
  | sf => Ok (SF2Prim sf)
  end.

(** [int(f)] for a Python float: truncation towards zero. *)
Definition py_int_of_float (f : float) : result Z :=
  match Prim2SF f with
  | S754_nan => Raise ValueError
  | S754_infinity _ => Raise OverflowError
  | S754_zero _ => Ok 0%Z
  | S754_finite s m e =>
      let a := match e with
               | Zneg p => (Zpos m / 2 ^ Zpos p)%Z
               | _ => (Zpos m * 2 ^ e)%Z
               end in
      Ok (if s then (- a)%Z else a)
  end.

(** [v * c] with [c] a float *)
Definition py_mul_float (v : PyVal) (c : float) : result float :=
  match v with
  | VInt z =>
      match py_float_of_int z with
      | Ok w => Ok (w * c)%float
      | Raise e => Raise e
      end
  | VBool b => Ok ((if b then 1 else 0) * c)%float
  | VFloat f => Ok (f * c)%float
  | VNone | VStr _ => Raise TypeError
  end.

(** [z > c] for an int [z] and a float [c]; Python compares the two
    exactly, without converting the int. *)
Definition int_gt_float (z : Z) (c : float) : bool :=
  match Prim2SF c with
  | S754_nan => false
  | S754_infinity s => s
  | S754_zero _ => (0 <? z)%Z
  | S754_finite s m e =>
      let n := if s then Zneg m else Zpos m in
      match e with
      | Zneg p => (n <? z * 2 ^ Zpos p)%Z
      | _ => (n * 2 ^ e <? z)%Z
      end
  end.

(** [v > c] with [c] a float *)
Definition py_gt_float (v : PyVal) (c : float) : result bool :=
  match v with
  | VFloat f => Ok (c <? f)%float
  | VInt z => Ok (int_gt_float z c)
  | VBool b => Ok (int_gt_float (if b then 1 else 0)%Z c)
  | VNone | VStr _ => Raise TypeError
  end.

(** [str(v)], as an f-string renders a value; the digits of a float are
    the platform's business. *)
Definition py_str (float_str : float -> string) (v : PyVal) : string :=
  match v with
  | VNone => "None"
  | VBool b => if b then "True" else "False"
  | VInt z => pretty z
  | VFloat f => float_str f
  | VStr s => s
  end.

(** [f"{v:.1f}"] *)
Definition py_format_1f (format_1f : float -> string) (v : PyVal)
  : result string :=
  match v with
  | VFloat f => Ok (format_1f f)
  | VInt z =>
      match py_float_of_int z with
      | Ok w => Ok (format_1f w)
      | Raise e => Raise e
      end
  | VBool b => Ok (format_1f (if b then 1 else 0)%float)
  | VStr _ => Raise ValueError
  | VNone => Raise TypeError
  end.

(** [v == s] for a string [s] *)
Definition eq_str (v : PyVal) (s : string) : bool :=
  match v with
  | VStr s' => String.eqb s' s
  | _ => false
  end.

(** ** The widget layer

    Flet controls are not part of the program.  Every call into them is
    one [WidgetOp], answered by the platform, which may raise and may
    change its own state [UI] but has no access to the program's
    variables. *)

Inductive WidgetOp : Type :=
| CardShow (card status button : string)
    (* status_text.value = ..; e.control.text = ..        *)
| CardUpdate (card : string)
    (* status_text.update(); e.control.update()            *)
| SliderShow (card text : string)
    (* speed_text.value = ..; speed_text.update()          *)
| LogTableUpdate
    (* log_table.update()                                   *)
| PowerChartDraw (history : list (PyVal * PyVal))
    (* data_series, min_x .. max_y, power_chart.update()    *)
| PageUpdate.
    (* page.update()                                        *)

Class Platform : Type := {
  UI : Type;
  widget : WidgetOp -> UI -> result unit * UI;
  (* power_chart.page is None *)
  chart_page_is_none : UI -> bool;
  (* str(x) and f"{x:.1f}" on a float *)
  float_str : float -> string;
  format_1f : float -> string
}.

(** A platform without a screen: every widget call succeeds and does
    nothing; floats print as a fixed placeholder. *)
Definition headless : Platform := {|
  UI := unit;
  widget := fun _ u => (Ok tt, u);
  chart_page_is_none := fun _ => false;
  float_str := fun _ => "<float>";
  format_1f := fun _ => "<float>"
|}.

(** A platform on which [update()] of a card's controls fails. *)
Definition update_fails : Platform := {|
  UI := unit;
  widget := fun op u =>
              match op with
              | CardUpdate _ => (Raise WidgetError, u)
              | _ => (Ok tt, u)
              end;
  chart_page_is_none := fun _ => false;
  float_str := fun _ => "<float>";
  format_1f := fun _ => "<float>"
|}.

(** ** Program state *)

(** Cells of one [ft.DataRow] of the log table. *)
Definition LogRow : Type := PyVal * PyVal * PyVal * PyVal.

(** The [ft.LineChart] object; its attributes live in the widget layer. *)
Inductive LineChart : Type := LineChartWidget.

Inductive View : Type :=
| OverviewView
| DeviceView (route title : string) (info_rows log_controls : list string)
| StatisticsView.

Record State `{Platform} : Type := mkState {
  devices : gmap string PyDict;
  logs : list PyDict;
  power_history : list (PyVal * PyVal);
  log_table : option (list LogRow);
  power_chart : option LineChart;
  views : list View;               (* page.views *)
  bus_trace : list PyDict;         (* every message given to send_all *)
  ui : UI
}.

Definition light1_dict : PyDict :=
  <["id" := VStr "light1"]> (<["name" := VStr "Living Room Light"]>
  (<["type" := VStr "light"]> (<["is_on" := VBool false]> ∅))).
Definition fan1_dict : PyDict :=
  <["id" := VStr "fan1"]> (<["name" := VStr "Ceiling Fan"]>
  (<["type" := VStr "fan"]> (<["speed" := VInt 0]> ∅))).
Definition thermo1_dict : PyDict :=
  <["id" := VStr "thermo1"]> (<["name" := VStr "Thermostat"]>
  (<["type" := VStr "thermostat"]> (<["setpoint" := VFloat 22%float]> ∅))).
Definition door1_dict : PyDict :=
  <["id" := VStr "door1"]> (<["name" := VStr "Front Door"]>
  (<["type" := VStr "door"]> (<["locked" := VBool true]> ∅))).

Definition initial_devices : gmap string PyDict :=
  <["light1" := light1_dict]> (<["fan1" := fan1_dict]>
  (<["thermo1" := thermo1_dict]> (<["door1" := door1_dict]> ∅))).

(** The state [main] sets up before the first route change. *)
Definition initial_state `{Platform} (u : UI) : State := {|
  devices := initial_devices;
  logs := [];
  power_history := [];
  log_table := None;
  power_chart := None;
  views := [];
  bus_trace := [];
  ui := u
|}.

(** ** State and exceptions

    A Python call either returns or raises; in both cases the writes it
    made to the shared objects stay.  [M A] is that: the outcome and the
    state after. *)

Definition M `{Platform} (A : Type) : Type := State -> result A * State.

Definition ret `{Platform} {A} (a : A) : M A := fun st => (Ok a, st).

Definition bind `{Platform} {A B} (m : M A) (k : A -> M B) : M B :=
  fun st =>
    match m st with
    | (Ok a, st') => k a st'
    | (Raise e, st') => (Raise e, st')
    end.

Declare Scope py_scope.
Delimit Scope py_scope with py.
Notation "x <- m ;; k" := (bind m (fun x => k))
  (at level 100, m at next level, k at level 200, right associativity)
  : py_scope.
Notation "m ;; k" := (bind m (fun _ => k))
  (at level 100, k at level 200, right associativity) : py_scope.

(** An expression that reads no state. *)
Definition lift `{Platform} {A} (r : result A) : M A := fun st => (r, st).

Definition gets `{Platform} {A} (proj : State -> A) : M A :=
  fun st => (Ok (proj st), st).

Definition modify `{Platform} (f : State -> State) : M unit :=
  fun st => (Ok tt, f st).

(** State after a call, whatever its outcome. *)
Definition exec `{Platform} {A} (m : M A) (st : State) : State := snd (m st).

Definition outcome `{Platform} {A} (m : M A) (st : State) : result A :=
  fst (m st).

Section Setters.
Context `{Platform}.

Definition set_devices (d : gmap string PyDict) (st : State) : State :=
  mkState _ d (logs st) (power_history st) (log_table st) (power_chart st)
          (views st) (bus_trace st) (ui st).
Definition set_logs (l : list PyDict) (st : State) : State :=
  mkState _ (devices st) l (power_history st) (log_table st)
          (power_chart st) (views st) (bus_trace st) (ui st).
Definition set_power_history (h : list (PyVal * PyVal)) (st : State)
  : State :=
  mkState _ (devices st) (logs st) h (log_table st) (power_chart st)
          (views st) (bus_trace st) (ui st).
Definition set_log_table (t : option (list LogRow)) (st : State) : State :=
  mkState _ (devices st) (logs st) (power_history st) t (power_chart st)
          (views st) (bus_trace st) (ui st).
Definition set_power_chart (c : option LineChart) (st : State) : State :=
  mkState _ (devices st) (logs st) (power_history st) (log_table st) c
          (views st) (bus_trace st) (ui st).
Definition set_views (v : list View) (st : State) : State :=
  mkState _ (devices st) (logs st) (power_history st) (log_table st)
          (power_chart st) v (bus_trace st) (ui st).
Definition set_bus_trace (b : list PyDict) (st : State) : State :=
  mkState _ (devices st) (logs st) (power_history st) (log_table st)
          (power_chart st) (views st) b (ui st).
Definition set_ui (u : UI) (st : State) : State :=
  mkState _ (devices st) (logs st) (power_history st) (log_table st)
          (power_chart st) (views st) (bus_trace st) u.

(** One call into the widget layer. *)
Definition call_widget (op : WidgetOp) : M unit :=
  fun st => let '(r, u) := widget op (ui st) in (r, set_ui u st).

(** [devices[id]]: the device dict itself, by reference.  A reference
    to a device is its key; reads and writes through it go to the one
    dict held by [devices]. *)
Definition device (id : string) : M PyDict :=
  fun st =>
    match devices st !! id with
    | Some d => (Ok d, st)
    | None => (Raise (KeyError id), st)
    end.

(** [dev[k]] where [dev = devices[id]] *)
Definition device_get (id k : string) : M PyVal :=
  (d <- device id ;; lift (getitem d k))%py.

(** [dev[k] = v] where [dev = devices[id]], in place *)
Definition device_set (id k : string) (v : PyVal) : M unit :=
  (d <- device id ;;
   modify (fun st => set_devices (<[id := <[k := v]> d]> (devices st)) st))%py.
End Setters.

Fixpoint mapM {A B} (f : A -> result B) (l : list A) : result (list B) :=
  match l with
  | [] => Ok []
  | x :: l' =>
      match f x with
      | Raise e => Raise e
      | Ok y =>
          match mapM f l' with
          | Raise e => Raise e
          | Ok ys => Ok (y :: ys)
          end
      end
  end.

(** [[x for x in l if p(x)]] where the test may raise *)
Fixpoint filterM {A} (p : A -> result bool) (l : list A) : result (list A) :=
  match l with
  | [] => Ok []
  | x :: l' =>
      match p x with
      | Raise e => Raise e
      | Ok b =>
          match filterM p l' with
          | Raise e => Raise e
          | Ok ys => Ok (if b then x :: ys else ys)
          end
      end
  end.

(** [page.route] as [TemplateRoute] matches it in [route_change]. *)
Inductive Route : Type :=
| RouteOverview
| RouteDevice (id : string)
| RouteStatistics
| RouteOther.

(** ** The program *)

Section Controller.
Context `{Platform}.
Local Open Scope py_scope.

Definition compute_total_power : M float :=
  let total := 0%float in
  _ <- device "light1" ;;
  _ <- device "fan1" ;;
  _ <- device "thermo1" ;;
  is_on <- device_get "light1" "is_on" ;;
  let total := if truthy is_on then (total + 40)%float else total in
  speed <- device_get "fan1" "speed" ;;
  watts <- lift (py_mul_float speed 20%float) ;;
  let total := (total + watts)%float in
  setpoint <- device_get "thermo1" "setpoint" ;;
  hot <- lift (py_gt_float setpoint 20%float) ;;
  let total := if hot then (total + 500)%float else total in
  ret total.

Definition update_power_chart : M unit :=
  chart <- gets power_chart ;;
  match chart with
  | None => ret tt
  | Some _ =>
      detached <- gets (fun st => chart_page_is_none (ui st)) ;;
      if detached then ret tt
      else
        history <- gets power_history ;;
        match history with
        | [] => ret tt
        | _ => call_widget (PowerChartDraw history)
        end
  end.

(** The four cells of a log row, read in the order the source reads
    them. *)
Definition log_cells (msg : PyDict) : result LogRow :=
  match getitem msg "timestamp" with
  | Raise e => Raise e
  | Ok ts =>
  match getitem msg "device_id" with
  | Raise e => Raise e
  | Ok dev =>
  match getitem msg "action" with
  | Raise e => Raise e
  | Ok action =>
  match getitem msg "user" with
  | Raise e => Raise e
  | Ok user => Ok (ts, dev, action, user)
  end end end end.

Definition handle_message (msg : PyObj) : M unit :=
  match msg with
  | OVal _ => ret tt
  | ODict msg =>
      if get_eq_str msg "type" "log" then
        modify (fun st => set_logs (logs st ++ [msg])%list st) ;;
        table <- gets log_table ;;
        match table with
        | None => ret tt
        | Some rows =>
            row <- lift (log_cells msg) ;;
            modify (set_log_table (Some (rows ++ [row])%list)) ;;
            call_widget LogTableUpdate
        end
      else if get_eq_str msg "type" "power_sample" then
        t <- lift (getitem msg "time") ;;
        p <- lift (getitem msg "total_power") ;;
        modify (fun st =>
                  set_power_history (power_history st ++ [(t, p)])%list st) ;;
        n <- gets (fun st => length (power_history st)) ;;
        (if (50 <? n)%nat
         then modify (fun st =>
                        set_power_history (tail (power_history st)) st)
         else ret tt) ;;
        chart <- gets power_chart ;;
        match chart with
        | None => ret tt
        | Some _ => update_power_chart
        end
      else ret tt
  end.

(** [page.pubsub.send_all(msg)].  The hub belongs to the Flet library:
    it takes the message, queues one call of every subscribed handler
    on its executor and returns; it does not run a handler inside the
    call and does not pass on what a handler raises.  So a publication
    only adds the message to [bus_trace], the messages handed to the
    hub; the call of [handle_message] the hub makes later is an event
    of the running program, [Deliver] below. *)
Definition send_all (msg : PyDict) : M unit :=
  modify (fun st => set_bus_trace (bus_trace st ++ [msg])%list st).

(** [now] is what [datetime.now().strftime("%H:%M:%S")] gives at the
    call. *)
Definition publish_log (device_id action now : string) : M unit :=
  let msg : PyDict :=
    <["type" := VStr "log"]> (<["device_id" := VStr device_id]>
    (<["action" := VStr action]> (<["user" := VStr "User"]>
    (<["timestamp" := VStr now]> ∅)))) in
  send_all msg.

Definition power_sample_msg (t : Z) (total_power : float) : PyDict :=
  <["type" := VStr "power_sample"]> (<["time" := VInt t]>
  (<["total_power" := VFloat total_power]> ∅)).

(** One turn of the [while True] loop of [simulator_task], from the
    top to [await asyncio.sleep(2)]; the result is the next [t]. *)
Definition simulator_step (t : Z) : M Z :=
  total_power <- compute_total_power ;;
  send_all (power_sample_msg t total_power) ;;
  ret (t + 1)%Z.

Definition toggle_light (now : string) : M unit :=
  is_on <- device_get "light1" "is_on" ;;
  device_set "light1" "is_on" (VBool (negb (truthy is_on))) ;;
  is_on <- device_get "light1" "is_on" ;;
  (if truthy is_on then
     call_widget (CardShow "light1" "Status: ON" "Turn OFF") ;;
     publish_log "light1" "Turn ON" now
   else
     call_widget (CardShow "light1" "Status: OFF" "Turn ON") ;;
     publish_log "light1" "Turn OFF" now) ;;
  call_widget (CardUpdate "light1").

(** [on_change] of the fan card; [value] is [e.control.value]. *)
Definition on_change_fan (value : float) (now : string) : M unit :=
  value <- lift (py_int_of_float value) ;;
  device_set "fan1" "speed" (VInt value) ;;
  call_widget (SliderShow "fan1" ("Fan speed: " ++ pretty value)) ;;
  publish_log "fan1" ("Set speed " ++ pretty value) now.

(** [on_change] of the thermostat card. *)
Definition on_change_thermostat (value : float) (now : string) : M unit :=
  device_set "thermo1" "setpoint" (VFloat value) ;;
  call_widget
    (SliderShow "thermo1" ("Set point: " ++ format_1f value ++ " °C")) ;;
  publish_log "thermo1" ("Set " ++ format_1f value ++ " °C") now.

Definition toggle_door (now : string) : M unit :=
  locked <- device_get "door1" "locked" ;;
  device_set "door1" "locked" (VBool (negb (truthy locked))) ;;
  locked <- device_get "door1" "locked" ;;
  (if truthy locked then
     call_widget (CardShow "door1" "Door: LOCKED" "Unlock") ;;
     publish_log "door1" "Lock" now
   else
     call_widget (CardShow "door1" "Door: UNLOCKED" "Lock") ;;
     publish_log "door1" "Unlock" now) ;;
  call_widget (CardUpdate "door1").
(** The lines of the details page that depend on the device: the
    title and the info rows. *)
Definition device_info (dev : option PyDict)
  : result (string * list string) :=
  match dev with
  | None => Ok ("Unknown device", ["Device not found."])
  | Some dev =>
      match getitem dev "name" with
      | Raise e => Raise e
      | Ok name =>
      match getitem dev "id" with
      | Raise e => Raise e
      | Ok id =>
      match getitem dev "type" with
      | Raise e => Raise e
      | Ok type =>
          let title := py_str float_str name ++ " details" in
          let info_rows :=
            ["ID: " ++ py_str float_str id;
             "Type: " ++ py_str float_str type] in
          if eq_str type "light" then
            match getitem dev "is_on" with
            | Raise e => Raise e
            | Ok v =>
                Ok (title,
                    info_rows ++
                    ["State: " ++ (if truthy v then "ON" else "OFF")]%string)%list
            end
          else if eq_str type "fan" then
            match getitem dev "speed" with
            | Raise e => Raise e
            | Ok v =>
                Ok (title,
                    info_rows ++ ["Speed: " ++ py_str float_str v]%string)%list
            end
          else if eq_str type "thermostat" then
            match getitem dev "setpoint" with
            | Raise e => Raise e
            | Ok v =>
                match py_format_1f format_1f v with
                | Raise e => Raise e
                | Ok txt =>
                    Ok (title,
                        info_rows ++ ["Setpoint: " ++ txt ++ " °C"]%string)%list
                end
            end
          else if eq_str type "door" then
            match getitem dev "locked" with
            | Raise e => Raise e
            | Ok v =>
                Ok (title,
                    info_rows ++
                    ["Locked: " ++ (if truthy v then "YES" else "NO")]%string)%list
            end
          else Ok (title, info_rows)
      end end end
  end.

(** [log["device_id"] == dev_id] *)
Definition log_is_for (dev_id : string) (log : PyDict) : result bool :=
  match getitem log "device_id" with
  | Raise e => Raise e
  | Ok v => Ok (eq_str v dev_id)
  end.

(** [f"{log['timestamp']} - {log['action']} ({log['user']})"] *)
Definition log_line (log : PyDict) : result string :=
  match getitem log "timestamp" with
  | Raise e => Raise e
  | Ok ts =>
  match getitem log "action" with
  | Raise e => Raise e
  | Ok action =>
  match getitem log "user" with
  | Raise e => Raise e
  | Ok user =>
      Ok (py_str float_str ts ++ " - " ++ py_str float_str action
          ++ " (" ++ py_str float_str user ++ ")")
  end end end.

Definition route_change (route : Route) : M unit :=
  modify (set_views []) ;;
  match route with
  | RouteOverview =>
      modify (fun st => set_views (views st ++ [OverviewView])%list st)
  | RouteDevice dev_id =>
      dev <- gets (fun st => devices st !! dev_id) ;;
      info <- lift (device_info dev) ;;
      all_logs <- gets logs ;;
      device_logs <- lift (filterM (log_is_for dev_id) all_logs) ;;
      log_controls <- lift (mapM log_line device_logs) ;;
      let view :=
        DeviceView ("/device/" ++ dev_id) (fst info) (snd info)
          (match log_controls with
           | [] => ["No actions yet."]
           | _ => log_controls
           end) in
      modify (fun st => set_views (views st ++ [view])%list st)
  | RouteStatistics =>
      all_logs <- gets logs ;;
      rows <- lift (mapM log_cells all_logs) ;;
      modify (set_log_table (Some rows)) ;;
      modify (set_power_chart (Some LineChartWidget)) ;;
      modify (fun st => set_views (views st ++ [StatisticsView])%list st) ;;
      call_widget PageUpdate ;;
      update_power_chart
  | RouteOther => ret tt
  end ;;
  call_widget PageUpdate.

(** ** The running program

    One callback runs at a time: a click or a slider move, a route
    change, one turn of the sampler between two sleeps, or the call of
    the subscriber [handle_message] on a message the hub delivers,
    published by this session or by another one. *)

Inductive Event : Type :=
| ClickLight (now : string)
| SlideFan (value : float) (now : string)
| SlideThermostat (value : float) (now : string)
| ClickDoor (now : string)
| Navigate (route : Route)
| Tick
| Deliver (msg : PyObj).

(** [sampler]: the local [t] of [simulator_task], [None] once the task
    has ended with an exception. *)
Record System : Type := mkSystem {
  program : State;
  sampler : option Z
}.

(** [main] has run: the objects are set up, nothing is on screen yet
    and the sampler is about to start with [t = 0]. *)
Definition boot (u : UI) : System :=
  {| program := initial_state u; sampler := Some 0%Z |}.

Definition step (sys : System) (ev : Event) : System :=
  let st := program sys in
  match ev with
  | ClickLight now => mkSystem (exec (toggle_light now) st) (sampler sys)
  | SlideFan v now => mkSystem (exec (on_change_fan v now) st) (sampler sys)
  | SlideThermostat v now =>
      mkSystem (exec (on_change_thermostat v now) st) (sampler sys)
  | ClickDoor now => mkSystem (exec (toggle_door now) st) (sampler sys)
  | Navigate r => mkSystem (exec (route_change r) st) (sampler sys)
  | Deliver msg => mkSystem (exec (handle_message msg) st) (sampler sys)
  | Tick =>
      match sampler sys with
      | None => sys
      | Some t =>
          match simulator_step t st with
          | (Ok t', st') => mkSystem st' (Some t')
          | (Raise _, st') => mkSystem st' None
          end
      end
  end.

Definition run (sys : System) (evs : list Event) : System :=
  fold_left step evs sys.

(** Messages delivered one after the other to [handle_message]. *)
Definition deliver_all (msgs : list PyObj) (st : State) : State :=
  fold_left (fun st msg => exec (handle_message msg) st) msgs st.
End Controller.

(** ** Reading the registry *)

(** [devices[id][k]], when both lookups succeed. *)
Definition read_field `{Platform} (st : State) (id k : string)
  : option PyVal :=
  devices st !! id ≫= (fun d => d !! k).

(** The three readings the power model takes. *)
Definition registry `{Platform} (st : State)
    (is_on : bool) (speed : Z) (setpoint : float) : Prop :=
  read_field st "light1" "is_on" = Some (VBool is_on) ∧
  read_field st "fan1" "speed" = Some (VInt speed) ∧
  read_field st "thermo1" "setpoint" = Some (VFloat setpoint).

(** ** The power model in the words of the specification

    Each device contributes a number of watts; the total is their sum. *)

Definition Z_to_float (z : Z) : float :=
  SF2Prim (binary_normalize FloatOps.prec FloatOps.emax z 0 false).

Definition light_watts (is_on : bool) : float :=
  if is_on then 40%float else 0%float.
Definition fan_watts (speed : Z) : float := (Z_to_float speed * 20)%float.
Definition thermostat_watts (setpoint : float) : float :=
  if (20 <? setpoint)%float then 500%float else 0%float.
Definition door_watts : float := 0%float.

Definition totalPower (is_on : bool) (speed : Z) (setpoint : float) : float :=
  (light_watts is_on + fan_watts speed + thermostat_watts setpoint
   + door_watts)%float.

(** The same sum the way the code accumulates it: a contribution is added
    only when its condition holds. *)
Definition accumulated (is_on : bool) (fan : float) (setpoint : float)
  : float :=
  let total := 0%float in
  let total := if is_on then (total + 40)%float else total in
  let total := (total + fan)%float in
  if (20 <? setpoint)%float then (total + 500)%float else total.

(** A computation that only reads [devices]: it leaves the whole state
    as it found it, and its outcome is the same in any two states that
    hold the same devices. *)
Definition reads_devices_only `{Platform} {A} (m : M A) : Prop :=
  ∀ st : State,
    exec m st = st ∧
    ∀ st' : State, devices st' = devices st → outcome m st' = outcome m st.

(** A registry with the given readings, on the screenless platform. *)
Definition registry_with (is_on : bool) (speed : Z) (setpoint : float)
  : @State headless :=
  @set_devices headless
    (<["light1" := <["is_on" := VBool is_on]> light1_dict]>
     (<["fan1" := <["speed" := VInt speed]> fan1_dict]>
      (<["thermo1" := <["setpoint" := VFloat setpoint]> thermo1_dict]>
       initial_devices)))
    (@initial_state headless tt).

(** ** What a message is to the subscriber *)

(** The entry a message adds to [logs]: the message itself when it is a
    dict whose ["type"] is ["log"]. *)
Definition log_entry (msg : PyObj) : option PyDict :=
  match msg with
  | ODict d => if get_eq_str d "type" "log" then Some d else None
  | OVal _ => None
  end.

(** The pair a message adds to [power_history]: a dict whose ["type"] is
    ["power_sample"] and that has both ["time"] and ["total_power"]. *)
Definition sample_entry (msg : PyObj) : option (PyVal * PyVal) :=
  match msg with
  | ODict d =>
      if get_eq_str d "type" "log" then None
      else if get_eq_str d "type" "power_sample" then
        match d !! "time", d !! "total_power" with
        | Some t, Some p => Some (t, p)
        | _, _ => None
        end
      else None
  | OVal _ => None
  end.

(** Append, then drop the oldest entry if that made more than 50. *)
Definition push_sample (history : list (PyVal * PyVal))
    (sample : PyVal * PyVal) : list (PyVal * PyVal) :=
  let history := (history ++ [sample])%list in
  if (50 <? length history)%nat then tail history else history.

(** A message that is not a dict, or whose ["type"] is neither ["log"]
    nor ["power_sample"]. *)
Definition malformed (msg : PyObj) : bool :=
  match msg with
  | OVal _ => true
  | ODict d =>
      negb (get_eq_str d "type" "log")
      && negb (get_eq_str d "type" "power_sample")
  end.

(** The sample the sampler publishes at index [i] with reading [p], as
    the subscriber receives it. *)
Definition sample_at (power : nat → float) (i : nat) : PyObj :=
  ODict (power_sample_msg (Z.of_nat i) (power i)).

Definition history_entry (power : nat → float) (i : nat) : PyVal * PyVal :=
  (VInt (Z.of_nat i), VFloat (power i)).

(** ** Frames *)

(** Every run of [m] takes a state to one related to it by [R]. *)
Definition keeps `{Platform} (R : State → State → Prop) {A} (m : M A)
  : Prop :=
  ∀ st : State, R st (exec m st).

Definition is_sample (d : PyDict) : bool :=
  get_eq_str d "type" "power_sample".

(** The power samples given to [send_all] so far, oldest first. *)
Definition published_samples `{Platform} (st : State) : list PyDict :=
  List.filter is_sample (bus_trace st).

(** A relation between a state and a later one that holds across every
    write the program makes, the writes to [devices] and the publication
    of a power sample apart. *)
Class Stable `{Platform} (R : State → State → Prop) : Prop := {
  stable_refl : ∀ st, R st st;
  stable_trans : ∀ st1 st2 st3, R st1 st2 → R st2 st3 → R st1 st3;
  stable_ui : ∀ st u, R st (set_ui u st);
  stable_views : ∀ st v, R st (set_views v st);
  stable_log_table : ∀ st t, R st (set_log_table t st);
  stable_power_chart : ∀ st c, R st (set_power_chart c st);
  stable_power_history : ∀ st h, R st (set_power_history h st);
  stable_logs : ∀ st d, R st (set_logs (logs st ++ [d])%list st);
  stable_bus_trace :
    ∀ st d, is_sample d = false →
            R st (set_bus_trace (bus_trace st ++ [d])%list st)
}.

(** Three things most callbacks leave alone. *)
Definition same_devices `{Platform} (st st' : State) : Prop :=
  devices st' = devices st.

(** Entries are only ever added at the end of [logs]. *)
Definition logs_grow `{Platform} (st st' : State) : Prop :=
  logs st `prefix_of` logs st'.

Definition same_samples `{Platform} (st st' : State) : Prop :=
  published_samples st' = published_samples st.

(** ** States the program can be in *)

(** Every device holds a value of its kind in its own field. *)
Definition well_typed `{Platform} (st : State) : Prop :=
  ∃ (is_on : bool) (speed : Z) (setpoint : float) (locked : bool),
    registry st is_on speed setpoint ∧
    read_field st "door1" "locked" = Some (VBool locked).

(** Moreover the fan speed is one the slider can produce. *)
Definition in_domain `{Platform} (st : State) : Prop :=
  ∃ (is_on : bool) (speed : Z) (setpoint : float),
    registry st is_on speed setpoint ∧ (0 ≤ speed ≤ 3)%Z.

(** The positions of [ft.Slider(min=0, max=3, divisions=3)]. *)
Definition fan_slider_values : list float := [0; 1; 2; 3]%float.

Definition from_widgets (ev : Event) : Prop :=
  match ev with
  | SlideFan value _ => In value fan_slider_values
  | _ => True
  end.

(** Turns of the sampler loop among the events. *)
Fixpoint ticks (evs : list Event) : nat :=
  match evs with
  | [] => 0
  | Tick :: evs => S (ticks evs)
  | _ :: evs => ticks evs
  end.

(** The published samples carry the indices 0, 1, 2, ... in order, and
    the sampler, while it lives, holds the next one. *)
Definition sampler_inv `{Platform} (sys : System) : Prop :=
  ∃ n : nat,
    map (λ d : PyDict, d !! "time") (published_samples (program sys))
    = map (λ i : nat, Some (VInt (Z.of_nat i))) (seq 0 n) ∧
    ∀ t : Z, sampler sys = Some t → t = Z.of_nat n.

(** A log entry with the four fields the views read. *)
Definition complete_log (d : PyDict) : Prop :=
  is_Some (d !! "device_id") ∧ is_Some (d !! "timestamp") ∧
  is_Some (d !! "action") ∧ is_Some (d !! "user").

(** ** The navigation bar *)

Inductive Color : Type := BLUE | BLACK.

(** The two text buttons of the bar built by [build_appbar], by the
    colour of their label; title and background are constants. *)
Record AppBar : Type := mkAppBar {
  overview_color : Color;
  statistics_color : Color
}.

Definition build_appbar (current_route : string) : AppBar :=
  {| overview_color :=
       if String.prefix "/overview" current_route then BLUE else BLACK;
     statistics_color :=
       if String.prefix "/statistics" current_route then BLUE else BLACK |}.

(** ** Invariants *)

(** The dict [publish_log] builds. *)
Definition log_message (device_id action now : string) : PyDict :=
  <["type" := VStr "log"]> (<["device_id" := VStr device_id]>
  (<["action" := VStr action]> (<["user" := VStr "User"]>
  (<["timestamp" := VStr now]> ∅)))).

(** Every run of [m] from a state where [P] holds ends in one where it
    holds, whether [m] returns or raises. *)
Definition preserves `{Platform} (P : State → Prop) {A} (m : M A) : Prop :=
  ∀ st : State, P st → P (exec m st).

(** A property of the state that survives each kind of write the
    callbacks make: to the widgets, the views, the chart variable, the
    devices and the bus trace, and the rebuilding of the log table from
    [logs].  What the subscriber writes is a matter of each delivery. *)
Class Invariant `{Platform} (P : State → Prop) : Prop := {
  inv_ui : ∀ st u, P st → P (set_ui u st);
  inv_views : ∀ st v, P st → P (set_views v st);
  inv_power_chart : ∀ st c, P st → P (set_power_chart c st);
  inv_devices : ∀ st d, P st → P (set_devices d st);
  inv_bus_trace : ∀ st b, P st → P (set_bus_trace b st);
  inv_table :
    ∀ st rows,
      mapM log_cells (logs st) = Ok rows →
      P st → P (set_log_table (Some rows) st)
}.

Definition history_bounded `{Platform} (st : State) : Prop :=
  (length (power_history st) ≤ 50)%nat.

(** When the log table exists its rows are the cells of [logs], entry by
    entry. *)
Definition table_in_sync `{Platform} (st : State) : Prop :=
  ∀ rows, log_table st = Some rows → mapM log_cells (logs st) = Ok rows.

(** A delivered message that, if it is a log message, has the four
    fields of one; those that [publish_log] builds do. *)
Definition well_formed (msg : PyObj) : Prop :=
  ∀ d, log_entry msg = Some d → complete_log d.

Definition foreign_well_formed (ev : Event) : Prop :=
  match ev with
  | Deliver msg => well_formed msg
  | _ => True
  end.

(** The fields of the devices that no callback writes. *)
Definition labelled `{Platform} (st : State) (id name type : string)
  : Prop :=
  read_field st id "id" = Some (VStr id) ∧
  read_field st id "name" = Some (VStr name) ∧
  read_field st id "type" = Some (VStr type).

Definition labels_intact `{Platform} (st : State) : Prop :=
  labelled st "light1" "Living Room Light" "light" ∧
  labelled st "fan1" "Ceiling Fan" "fan" ∧
  labelled st "thermo1" "Thermostat" "thermostat" ∧
  labelled st "door1" "Front Door" "door".

(** * Properties *)

Local Open Scope list_scope.

Section PowerModel.
Context `{Platform}.

(** From a reading of [devices[id][k]] to the two lookups behind it. *)
Lemma read_field_Some (st : State) (id k : string) (v : PyVal) :
  read_field st id k = Some v →
  ∃ d : PyDict, devices st !! id = Some d ∧ d !! k = Some v.
Proof.
  unfold read_field. destruct (devices st !! id) as [d|] eqn:E; simpl.
  - intros Hk. exists d. split; [reflexivity | exact Hk].
  - discriminate.
Qed.

Lemma bind_ok {A B} (m : M A) (k : A → M B) (st st' : State) (a : A) :
  m st = (Ok a, st') → bind m k st = k a st'.
Proof. intros E. unfold bind. rewrite E. reflexivity. Qed.

Lemma bind_raise {A B} (m : M A) (k : A → M B) (st st' : State) e :
  m st = (Raise e, st') → bind m k st = (Raise e, st').
Proof. intros E. unfold bind. rewrite E. reflexivity. Qed.

Lemma device_ok (st : State) (id : string) (d : PyDict) :
  devices st !! id = Some d → device id st = (Ok d, st).
Proof. intros E. unfold device. rewrite E. reflexivity. Qed.

Lemma device_get_ok (st : State) (id k : string) (v : PyVal) :
  read_field st id k = Some v → device_get id k st = (Ok v, st).
Proof.
  intros (d & Hd & Hk)%read_field_Some. unfold device_get.
  rewrite (bind_ok _ _ _ _ _ (device_ok _ _ _ Hd)).
  unfold lift, getitem. rewrite Hk. reflexivity.
Qed.

(** With the three readings in place the code returns the accumulated
    sum, or the [OverflowError] of [speed * 20.0], and writes nothing. *)
Lemma compute_total_power_run (st : State) is_on speed setpoint :
  registry st is_on speed setpoint →
  compute_total_power st =
    (match py_float_of_int speed with
     | Ok w => Ok (accumulated is_on (w * 20)%float setpoint)
     | Raise e => Raise e
     end, st).
Proof.
  intros (Hl & Hf & Ht).
  destruct (read_field_Some _ _ _ _ Hl) as (light & Hl' & _).
  destruct (read_field_Some _ _ _ _ Hf) as (fan & Hf' & _).
  destruct (read_field_Some _ _ _ _ Ht) as (thermo & Ht' & _).
  unfold compute_total_power.
  rewrite (bind_ok _ _ _ _ _ (device_ok _ _ _ Hl')).
  rewrite (bind_ok _ _ _ _ _ (device_ok _ _ _ Hf')).
  rewrite (bind_ok _ _ _ _ _ (device_ok _ _ _ Ht')).
  rewrite (bind_ok _ _ _ _ _ (device_get_ok _ _ _ _ Hl)).
  rewrite (bind_ok _ _ _ _ _ (device_get_ok _ _ _ _ Hf)).
  unfold py_mul_float.
  destruct (py_float_of_int speed) as [w|e].
  - rewrite (bind_ok _ _ st st (w * 20)%float) by reflexivity.
    rewrite (bind_ok _ _ _ _ _ (device_get_ok _ _ _ _ Ht)).
    unfold bind, lift, ret, py_gt_float, accumulated. simpl.
    destruct is_on; reflexivity.
  - rewrite (bind_raise _ _ st st e) by reflexivity. reflexivity.
Qed.

Lemma small_speed (speed : Z) :
  (0 ≤ speed ≤ 3)%Z → speed = 0%Z ∨ speed = 1%Z ∨ speed = 2%Z ∨ speed = 3%Z.
Proof. lia. Qed.

(** On the declared fan domain the accumulated sum is the sum of the
    four contributions. *)
Lemma accumulated_totalPower is_on speed setpoint :
  (0 ≤ speed ≤ 3)%Z →
  py_float_of_int speed = Ok (Z_to_float speed) ∧
  accumulated is_on (Z_to_float speed * 20)%float setpoint
    = totalPower is_on speed setpoint.
Proof.
  intros Hs. unfold accumulated, totalPower, thermostat_watts, light_watts,
    fan_watts, door_watts.
  destruct (20 <? setpoint)%float;
    destruct (small_speed speed Hs) as [-> | [-> | [-> | ->]]];
    destruct is_on; split; vm_compute; reflexivity.
Qed.
Lemma compute_total_power_domain (st : State) is_on speed setpoint :
  registry st is_on speed setpoint → (0 ≤ speed ≤ 3)%Z →
  compute_total_power st = (Ok (totalPower is_on speed setpoint), st).
Proof.
  intros Hreg Hs.
  rewrite (compute_total_power_run st is_on speed setpoint Hreg).
  destruct (accumulated_totalPower is_on speed setpoint Hs) as [-> ->].
  reflexivity.
Qed.

Lemma reads_ret {A} (a : A) : reads_devices_only (ret a).
Proof. intros st. split; [reflexivity | intros; reflexivity]. Qed.

Lemma reads_lift {A} (r : result A) : reads_devices_only (lift r).
Proof. intros st. split; [reflexivity | intros; reflexivity]. Qed.

Lemma reads_device (id : string) : reads_devices_only (device id).
Proof.
  intros st. unfold exec, outcome, device. split.
  - destruct (devices st !! id); reflexivity.
  - intros st' ->. destruct (devices st !! id); reflexivity.
Qed.

Lemma reads_bind {A B} (m : M A) (k : A → M B) :
  reads_devices_only m → (∀ a, reads_devices_only (k a)) →
  reads_devices_only (bind m k).
Proof.
  intros Hm Hk st. unfold exec, outcome, bind.
  destruct (Hm st) as [Hst Hout]. unfold exec in Hst. split.
  - destruct (m st) as [[a|e] st1] eqn:E; simpl in Hst; subst st1.
    + apply (Hk a st).
    + reflexivity.
  - intros st' Hd. specialize (Hout st' Hd). unfold outcome in Hout.
    destruct (Hm st') as [Hst' _]. unfold exec in Hst'.
    destruct (m st) as [r st1] eqn:E; destruct (m st') as [r' st1'] eqn:E'.
    simpl in *. subst st1 st1' r'.
    destruct r as [a|e]; [|reflexivity].
    apply (Hk a st). exact Hd.
Qed.

Lemma reads_device_get (id k : string) :
  reads_devices_only (device_get id k).
Proof.
  unfold device_get. apply reads_bind; [apply reads_device|].
  intros d. apply reads_lift.
Qed.

Lemma reads_compute_total_power : reads_devices_only compute_total_power.
Proof.
  unfold compute_total_power.
  repeat first
    [ apply reads_bind; [first [apply reads_device | apply reads_device_get
                                | apply reads_lift] | intros ?]
    | apply reads_ret ].
Qed.
End PowerModel.

(** C1.  Whenever the light's [is_on] is a bool, the fan's [speed] an int
    and the thermostat's [setpoint] a float, [compute_total_power]
    returns the sum accumulated from 0.0 by adding 40.0 iff the light is
    on, then [speed * 20.0], then 500.0 iff [setpoint > 20.0]; the door is
    never read.  For a speed in 0..3 this is the sum of the four
    contributions of the specification (the door's being 0).  With the
    light off, speed 0 and setpoint 19.0 the result is 0.0; with the
    light on, speed 2 and setpoint 22.0 it is 580.0. *)
Theorem total_power_formula `{Platform} (st : State) is_on speed setpoint :
  registry st is_on speed setpoint →
  outcome compute_total_power st =
    match py_float_of_int speed with
    | Ok w => Ok (accumulated is_on (w * 20)%float setpoint)
    | Raise e => Raise e
    end ∧
  ((0 ≤ speed ≤ 3)%Z →
   outcome compute_total_power st = Ok (totalPower is_on speed setpoint)) ∧
  (is_on = false → speed = 0%Z → setpoint = 19%float →
   outcome compute_total_power st = Ok 0%float) ∧
  (is_on = true → speed = 2%Z → setpoint = 22%float →
   outcome compute_total_power st = Ok 580%float).
Proof.
  intros Hreg. unfold outcome. split; [|split; [|split]].
  - rewrite (compute_total_power_run st is_on speed setpoint Hreg).
    reflexivity.
  - intros Hs.
    rewrite (compute_total_power_domain st is_on speed setpoint Hreg Hs).
    reflexivity.
  - intros -> -> ->.
    rewrite (compute_total_power_run st _ _ _ Hreg). vm_compute. reflexivity.
  - intros -> -> ->.
    rewrite (compute_total_power_run st _ _ _ Hreg). vm_compute. reflexivity.
Qed.

Lemma total_power_formula_witness :
  registry (registry_with true 2 22) true 2 22 ∧
  @outcome headless _ compute_total_power (registry_with true 2 22)
    = Ok 580%float.
Proof.
  assert (Hreg : registry (registry_with true 2 22) true 2 22)
    by (vm_compute; repeat split; reflexivity).
  split; [exact Hreg|].
  destruct (@total_power_formula headless _ true 2%Z 22%float Hreg)
    as (_ & _ & _ & H580).
  apply H580; reflexivity.
Defined.

(** C5.  [compute_total_power] is deterministic and has no side effect:
    it leaves the whole state (registry, buffers, widgets) exactly as it
    found it, so a second call returns what the first returned; and its
    result depends on the registry alone: in any two states that hold the
    same devices it returns the same value. *)
Theorem total_power_deterministic `{Platform} (st : State) :
  exec compute_total_power st = st ∧
  outcome compute_total_power (exec compute_total_power st)
    = outcome compute_total_power st ∧
  ∀ st' : State, devices st' = devices st →
    outcome compute_total_power st' = outcome compute_total_power st.
Proof.
  destruct (reads_compute_total_power st) as [Hst Hout].
  split; [exact Hst|]. split; [|exact Hout].
  rewrite Hst. reflexivity.
Qed.

Lemma total_power_deterministic_witness :
  @outcome headless _ compute_total_power
     (@set_logs headless [light1_dict] (registry_with true 3 25))
  = @outcome headless _ compute_total_power (registry_with true 3 25).
Proof.
  destruct (@total_power_deterministic headless (registry_with true 3 25))
    as (_ & _ & Hsame).
  apply Hsame. reflexivity.
Defined.

(** C8.  In every state whose registry satisfies the declared domains
    (the light's [is_on] a bool, the fan's [speed] an int in 0..3, the
    thermostat's [setpoint] a float) [compute_total_power] returns
    normally and the value it returns is at least 0. *)
Theorem total_power_nonnegative `{Platform} (st : State)
    is_on speed setpoint :
  registry st is_on speed setpoint → (0 ≤ speed ≤ 3)%Z →
  ∃ w : float,
    outcome compute_total_power st = Ok w ∧ (0 <=? w)%float = true.
Proof.
  intros Hreg Hs. exists (totalPower is_on speed setpoint). split.
  - unfold outcome.
    rewrite (compute_total_power_domain st is_on speed setpoint Hreg Hs).
    reflexivity.
  - unfold totalPower, thermostat_watts, light_watts, fan_watts, door_watts.
    destruct (20 <? setpoint)%float;
      destruct (small_speed speed Hs) as [-> | [-> | [-> | ->]]];
      destruct is_on; vm_compute; reflexivity.
Qed.

Lemma total_power_nonnegative_witness :
  ∃ w : float,
    @outcome headless _ compute_total_power (registry_with false 1 nan)
      = Ok w ∧ (0 <=? w)%float = true.
Proof.
  apply (@total_power_nonnegative headless (registry_with false 1 nan)
           false 1%Z nan).
  - vm_compute. repeat split; reflexivity.
  - lia.
Defined.

(** ** The subscriber *)

(** Unfold the monad and project the record fields. *)
Ltac run_step :=
  unfold exec, outcome, bind, modify, gets, lift, ret, call_widget;
  cbn [fst snd devices logs power_history log_table power_chart views
       bus_trace ui set_devices set_logs set_power_history set_log_table
       set_power_chart set_views set_bus_trace set_ui].

Ltac frame_done :=
  run_step; cbn [option_list]; rewrite ?app_nil_r; done.

Section Subscriber.
Context `{Platform}.

Lemma set_ui_id (st : State) : set_ui (ui st) st = st.
Proof. destruct st; reflexivity. Qed.

Lemma update_power_chart_frame (st : State) :
  ∃ r u, update_power_chart st = (r, set_ui u st).
Proof.
  unfold update_power_chart. run_step.
  destruct (power_chart st);
    [|exists (Ok tt), (ui st); by rewrite set_ui_id].
  destruct (chart_page_is_none (ui st));
    [exists (Ok tt), (ui st); by rewrite set_ui_id|].
  destruct (power_history st) as [|p h] eqn:E;
    [exists (Ok tt), (ui st); by rewrite set_ui_id|].
  destruct (widget (PowerChartDraw (p :: h)) (ui st)) as [r u]. eauto.
Qed.

(** What one delivery does to the program's own variables. *)
Lemma handle_message_effect (msg : PyObj) (st : State) :
  let st' := exec (handle_message msg) st in
  devices st' = devices st ∧
  logs st' = logs st ++ option_list (log_entry msg) ∧
  power_history st' =
    match sample_entry msg with
    | Some s => push_sample (power_history st) s
    | None => power_history st
    end ∧
  views st' = views st ∧ bus_trace st' = bus_trace st ∧
  power_chart st' = power_chart st.
Proof.
  destruct msg as [v|d]; cbn [log_entry sample_entry].
  { unfold handle_message. frame_done. }
  unfold handle_message.
  destruct (get_eq_str d "type" "log").
  - run_step. destruct (log_table st) as [rows|]; [|frame_done].
    destruct (log_cells d) as [row|e]; run_step; [|frame_done].
    destruct (widget LogTableUpdate (ui st)) as [r u]. frame_done.
  - destruct (get_eq_str d "type" "power_sample"); [|frame_done].
    unfold getitem. run_step.
    destruct (d !! "time") as [t|]; run_step; [|frame_done].
    destruct (d !! "total_power") as [p|]; run_step; [|frame_done].
    unfold push_sample. cbv zeta.
    destruct (50 <? length (power_history st ++ [(t, p)]))%nat; run_step.
    + destruct (power_chart st) eqn:Hc; [|frame_done].
      match goal with |- context [update_power_chart ?s] =>
        destruct (update_power_chart_frame s) as (r & u & ->) end.
      frame_done.
    + destruct (power_chart st) eqn:Hc; [|frame_done].
      match goal with |- context [update_power_chart ?s] =>
        destruct (update_power_chart_frame s) as (r & u & ->) end.
      frame_done.
Qed.

(** A malformed message goes through the handler without a trace. *)
Lemma handle_message_malformed (msg : PyObj) (st : State) :
  malformed msg = true → handle_message msg st = (Ok tt, st).
Proof.
  destruct msg as [v|d]; cbn [malformed]; [reflexivity|].
  intros [Hlog Hsample]%andb_prop. unfold handle_message.
  apply negb_true_iff in Hlog, Hsample. rewrite Hlog, Hsample. reflexivity.
Qed.

Lemma deliver_all_cons msg msgs (st : State) :
  deliver_all (msg :: msgs) st
  = deliver_all msgs (exec (handle_message msg) st).
Proof. reflexivity. Qed.

Lemma deliver_all_logs msgs (st : State) :
  logs (deliver_all msgs st) = logs st ++ omap log_entry msgs.
Proof.
  revert st. induction msgs as [|msg msgs IH]; intros st.
  - cbn. by rewrite app_nil_r.
  - rewrite deliver_all_cons, IH.
    destruct (handle_message_effect msg st) as (_ & -> & _).
    rewrite <- app_assoc. f_equal. cbn [omap list_omap].
    destruct (log_entry msg); reflexivity.
Qed.

Lemma deliver_all_history msgs (st : State) :
  power_history (deliver_all msgs st)
  = fold_left push_sample (omap sample_entry msgs) (power_history st).
Proof.
  revert st. induction msgs as [|msg msgs IH]; intros st; [reflexivity|].
  rewrite deliver_all_cons, IH.
  destruct (handle_message_effect msg st) as (_ & _ & -> & _).
  cbn [omap list_omap]. destruct (sample_entry msg); reflexivity.
Qed.

Lemma push_sample_length h s :
  (length h ≤ 50 → length (push_sample h s) ≤ 50)%nat.
Proof.
  intros Hh. unfold push_sample.
  destruct (Nat.ltb_spec 50 (length (h ++ [s]))) as [Hlt|Hle]; [|exact Hle].
  rewrite length_app in Hlt. cbn in Hlt.
  destruct h as [|x h]; cbn in *; [lia|]. rewrite length_app. cbn. lia.
Qed.

Lemma fold_push_sample_length samples h :
  (length h ≤ 50 → length (fold_left push_sample samples h) ≤ 50)%nat.
Proof.
  revert h. induction samples as [|s samples IH]; intros h Hh; [exact Hh|].
  cbn [fold_left]. apply IH. by apply push_sample_length.
Qed.

Lemma tail_full_window {B} (f : nat → B) (a : nat) (x : B) :
  tail (map f (seq a 50) ++ [x]) = map f (seq (S a) 49) ++ [x].
Proof. reflexivity. Qed.

Lemma seq_full_window {B} (f : nat → B) (a : nat) :
  map f (seq a 50) = map f (seq a 49) ++ [f (a + 49)%nat].
Proof. rewrite (seq_S 49 a), map_app. reflexivity. Qed.

(** The buffer after [n] samples pushed in order on an empty one: the
    last [min n 50] of them. *)
Lemma fold_push_sample_window {A} (entry : A → PyVal * PyVal)
    (item : nat → A) (n : nat) :
  fold_left push_sample (map (λ i, entry (item i)) (seq 0 n)) []
  = map (λ i, entry (item i)) (seq (n - 50) (min n 50)).
Proof.
  induction n as [|n IH]; [reflexivity|].
  rewrite seq_S, map_app, fold_left_app, IH. cbn [map fold_left Nat.add].
  unfold push_sample. cbv zeta.
  rewrite length_app, length_map, length_seq. cbn [length].
  destruct (Nat.ltb_spec 50 (n `min` 50 + 1)) as [Hlt|Hle].
  - assert (Hn : (50 ≤ n)%nat) by lia.
    replace (n `min` 50)%nat with 50%nat by lia.
    replace (S n `min` 50)%nat with 50%nat by lia.
    replace (S n - 50)%nat with (S (n - 50)) by lia.
    rewrite (tail_full_window (λ i, entry (item i))).
    rewrite (seq_full_window (λ i, entry (item i)) (S (n - 50))).
    replace (S (n - 50) + 49)%nat with n by lia. reflexivity.
  - assert (Hn : (n < 50)%nat) by lia.
    replace (n `min` 50)%nat with n by lia.
    replace (S n `min` 50)%nat with (S n) by lia.
    replace (n - 50)%nat with 0%nat by lia.
    replace (S n - 50)%nat with 0%nat by lia.
    rewrite seq_S, map_app. reflexivity.
Qed.

Lemma sample_entry_sample_at (power : nat → float) (i : nat) :
  sample_entry (sample_at power i) = Some (history_entry power i).
Proof. reflexivity. Qed.

Lemma omap_sample_at (power : nat → float) (l : list nat) :
  omap sample_entry (map (sample_at power) l) = map (history_entry power) l.
Proof.
  induction l as [|i l IH]; [reflexivity|].
  cbn [map omap list_omap]. rewrite sample_entry_sample_at.
  change (omap sample_entry (map (sample_at power) l) =  map (history_entry power) l) in IH.
  cbn [map]. f_equal. exact IH.
Qed.
End Subscriber.

(** C2.  Whatever messages the subscriber receives, a power history that
    held at most 50 entries still holds at most 50 after them; and from
    an empty history, after the 60 samples with indices 0..59, delivered
    in that order, the history is exactly the 50 entries with indices
    10..59, in increasing order, each with the reading published under
    its index. *)
Theorem power_history_capped `{Platform} (st : State) :
  (∀ msgs : list PyObj,
     (length (power_history st) ≤ 50)%nat →
     (length (power_history (deliver_all msgs st)) ≤ 50)%nat) ∧
  (∀ power : nat → float,
     power_history st = [] →
     power_history (deliver_all (map (sample_at power) (seq 0 60)) st)
     = map (history_entry power) (seq 10 50)).
Proof.
  split.
  - intros msgs Hst. rewrite deliver_all_history.
    by apply fold_push_sample_length.
  - intros power Hst.
    rewrite deliver_all_history, omap_sample_at, Hst.
    apply (fold_push_sample_window (λ e, e) (history_entry power) 60).
Qed.

Lemma power_history_capped_witness :
  (length (power_history
     (@deliver_all headless [sample_at (λ _, 40%float) 7]
        (registry_with true 0 19))) ≤ 50)%nat ∧
  power_history
    (@deliver_all headless (map (sample_at (λ _, 40%float)) (seq 0 60))
       (registry_with true 0 19))
  = map (history_entry (λ _, 40%float)) (seq 10 50).
Proof.
  destruct (@power_history_capped headless (registry_with true 0 19))
    as [Hcap Hwin].
  split.
  - apply Hcap. cbn. lia.
  - apply Hwin. reflexivity.
Defined.

(** C10.  A message that is not a dict, or a dict whose ["type"] is
    neither ["log"] nor ["power_sample"], is ignored: [handle_message]
    returns normally and the state after it (devices, log buffer, power
    history and everything else) is the state before. *)
Theorem malformed_message_ignored `{Platform} (msg : PyObj) (st : State) :
  malformed msg = true →
  outcome (handle_message msg) st = Ok tt ∧
  exec (handle_message msg) st = st.
Proof.
  intros Hbad. unfold outcome, exec.
  rewrite (handle_message_malformed msg st Hbad). split; reflexivity.
Qed.

Lemma malformed_message_ignored_witness :
  @outcome headless _ (handle_message (ODict (<["type" := VStr "ping"]> ∅)))
     (registry_with true 2 22) = Ok tt ∧
  @exec headless _ (handle_message (ODict (<["type" := VStr "ping"]> ∅)))
     (registry_with true 2 22) = registry_with true 2 22.
Proof.
  apply (@malformed_message_ignored headless). reflexivity.
Defined.

(** ** Frames of the callbacks *)

Lemma keeps_ret `{Platform} (R : State → State → Prop) `{!Stable R}
    {A} (a : A) : keeps R (ret a).
Proof. intros st. apply stable_refl. Qed.

Lemma keeps_lift `{Platform} (R : State → State → Prop) `{!Stable R}
    {A} (r : result A) : keeps R (lift r).
Proof. intros st. apply stable_refl. Qed.

Lemma keeps_gets `{Platform} (R : State → State → Prop) `{!Stable R}
    {A} (proj : State → A) : keeps R (gets proj).
Proof. intros st. apply stable_refl. Qed.

Lemma keeps_modify `{Platform} (R : State → State → Prop) `{!Stable R}
    (f : State → State) :
  (∀ st, R st (f st)) → keeps R (modify f).
Proof. intros Hf st. apply Hf. Qed.

Lemma keeps_bind `{Platform} (R : State → State → Prop) `{!Stable R}
    {A B} (m : M A) (k : A → M B) :
  keeps R m → (∀ a, keeps R (k a)) → keeps R (bind m k).
Proof.
  intros Hm Hk st. specialize (Hm st). unfold exec, bind in *.
  destruct (m st) as [[a|e] st1]; cbn [snd] in *; [|exact Hm].
  eapply stable_trans; [exact Hm | apply Hk].
Qed.

Lemma keeps_call_widget `{Platform} (R : State → State → Prop) `{!Stable R}
    (op : WidgetOp) : keeps R (call_widget op).
Proof.
  intros st. unfold exec, call_widget.
  destruct (widget op (ui st)) as [r u]. apply stable_ui.
Qed.

Lemma keeps_device `{Platform} (R : State → State → Prop) `{!Stable R}
    (id : string) : keeps R (device id).
Proof.
  intros st. unfold exec, device.
  destruct (devices st !! id); apply stable_refl.
Qed.

Lemma keeps_device_get `{Platform} (R : State → State → Prop) `{!Stable R}
    (id k : string) : keeps R (device_get id k).
Proof.
  unfold device_get. apply keeps_bind; [exact _ | apply keeps_device; exact _ |].
  intros d. apply keeps_lift; exact _.
Qed.

Ltac keeps_step :=
  first
    [ apply keeps_ret; exact _ | apply keeps_lift; exact _
    | apply keeps_gets; exact _
    | apply keeps_call_widget; exact _ | apply keeps_device_get; exact _
    | apply keeps_device; exact _
    | apply keeps_modify; [exact _|]; intros ?;
      first [ apply stable_views | apply stable_log_table
            | apply stable_power_chart | apply stable_power_history
            | apply stable_logs | apply stable_ui ]
    | apply keeps_bind; [exact _ | | intros ?]
    | match goal with
      | |- keeps _ (match ?x with _ => _ end) => destruct x
      end ].

Lemma keeps_update_power_chart `{Platform} (R : State → State → Prop) `{!Stable R}
    : keeps R update_power_chart.
Proof. unfold update_power_chart. repeat keeps_step. Qed.

Lemma keeps_handle_message `{Platform} (R : State → State → Prop) `{!Stable R}
    (msg : PyObj) : keeps R (handle_message msg).
Proof.
  unfold handle_message.
  repeat first [apply keeps_update_power_chart; exact _ | keeps_step].
Qed.

Lemma keeps_compute_total_power `{Platform} (R : State → State → Prop) `{!Stable R}
    : keeps R compute_total_power.
Proof. unfold compute_total_power. repeat keeps_step. Qed.

(** Publishing anything but a power sample. *)
Lemma keeps_send_all `{Platform} (R : State → State → Prop) `{!Stable R}
    (msg : PyDict) :
  is_sample msg = false → keeps R (send_all msg).
Proof.
  intros Hmsg. unfold send_all.
  apply keeps_modify; [exact _|]. intros st. by apply stable_bus_trace.
Qed.

Lemma keeps_publish_log `{Platform} (R : State → State → Prop) `{!Stable R}
    (device_id action now : string) :
  keeps R (publish_log device_id action now).
Proof. unfold publish_log. apply keeps_send_all; [exact _|]. reflexivity. Qed.

Lemma keeps_route_change `{Platform} (R : State → State → Prop) `{!Stable R}
    (route : Route) : keeps R (route_change route).
Proof.
  unfold route_change.
  repeat first [apply keeps_update_power_chart; exact _ | keeps_step].
Qed.
(** The callbacks of the cards also write to [devices]. *)
Lemma keeps_device_set `{Platform} (R : State → State → Prop) `{!Stable R}
    (stable_devices : ∀ st d, R st (set_devices d st))
    (id k : string) (v : PyVal) :
  keeps R (device_set id k v).
Proof.
  unfold device_set. apply keeps_bind; [exact _ | apply keeps_device; exact _ |].
  intros d. apply keeps_modify; [exact _|]. intros st. apply stable_devices.
Qed.

Lemma keeps_toggle_light `{Platform} (R : State → State → Prop) `{!Stable R}
    (stable_devices : ∀ st d, R st (set_devices d st))
    (now : string) : keeps R (toggle_light now).
Proof.
  unfold toggle_light.
  repeat first [apply keeps_device_set; [exact _ | exact stable_devices] | apply keeps_publish_log; exact _
               | keeps_step].
Qed.

Lemma keeps_toggle_door `{Platform} (R : State → State → Prop) `{!Stable R}
    (stable_devices : ∀ st d, R st (set_devices d st))
    (now : string) : keeps R (toggle_door now).
Proof.
  unfold toggle_door.
  repeat first [apply keeps_device_set; [exact _ | exact stable_devices] | apply keeps_publish_log; exact _
               | keeps_step].
Qed.

Lemma keeps_on_change_fan `{Platform} (R : State → State → Prop) `{!Stable R}
    (stable_devices : ∀ st d, R st (set_devices d st))
    (value : float) (now : string) :
  keeps R (on_change_fan value now).
Proof.
  unfold on_change_fan.
  repeat first [apply keeps_device_set; [exact _ | exact stable_devices] | apply keeps_publish_log; exact _
               | keeps_step].
Qed.

Lemma keeps_on_change_thermostat `{Platform} (R : State → State → Prop) `{!Stable R}
    (stable_devices : ∀ st d, R st (set_devices d st))
    (value : float) (now : string) :
  keeps R (on_change_thermostat value now).
Proof.
  unfold on_change_thermostat.
  repeat first [apply keeps_device_set; [exact _ | exact stable_devices] | apply keeps_publish_log; exact _
               | keeps_step].
Qed.
Ltac keeps_all :=
  repeat first
    [ apply keeps_update_power_chart; exact _ | apply keeps_publish_log; exact _
    | keeps_step ].

Section Callbacks.
Context `{Platform}.

Global Instance same_devices_stable : Stable same_devices.
Proof. split; unfold same_devices; intros; cbn; congruence. Qed.

Global Instance logs_grow_stable : Stable logs_grow.
Proof.
  split; unfold logs_grow; try (intros; cbn; done).
  - intros st1 st2 st3 H12 H23. by etrans.
  - intros st d. cbn. by apply prefix_app_r.
Qed.

Global Instance same_samples_stable : Stable same_samples.
Proof.
  split; unfold same_samples, published_samples; try (intros; cbn; done).
  - intros st1 st2 st3 H12 H23. congruence.
  - intros st d Hd. cbn [bus_trace set_bus_trace].
    rewrite List.filter_app. cbn [List.filter]. rewrite Hd.
    by rewrite app_nil_r.
Qed.

Lemma exec_bind_ok {A B} (m : M A) (k : A → M B) (st st' : State) (a : A) :
  m st = (Ok a, st') → exec (bind m k) st = exec (k a) st'.
Proof. intros E. unfold exec. by rewrite (bind_ok m k st st' a E). Qed.

Lemma device_set_ok (st : State) (id k : string) (v : PyVal) (d : PyDict) :
  devices st !! id = Some d →
  device_set id k v st
  = (Ok tt, set_devices (<[id := <[k := v]> d]> (devices st)) st).
Proof.
  intros Hd. unfold device_set.
  rewrite (bind_ok _ _ _ _ _ (device_ok _ _ _ Hd)). reflexivity.
Qed.

Lemma read_field_intro (st : State) (id k : string) (d : PyDict) (v : PyVal) :
  devices st !! id = Some d → d !! k = Some v → read_field st id k = Some v.
Proof. intros Hd Hk. unfold read_field. rewrite Hd. exact Hk. Qed.

(** What is left of a callback after its write to [devices]. *)
Ltac rest_keeps R :=
  match goal with
  | |- _ (exec ?m ?s) = _ =>
      let Hrest := fresh "Hrest" in
      assert (Hrest : keeps R m) by keeps_all;
      exact (Hrest s)
  end.

(** A toggle writes the negation of the field's truth value. *)
Lemma toggle_light_devices (st : State) (now : string) light v :
  devices st !! "light1" = Some light → light !! "is_on" = Some v →
  devices (exec (toggle_light now) st)
  = <["light1" := <["is_on" := VBool (negb (truthy v))]> light]> (devices st).
Proof.
  intros Hd Hk. unfold toggle_light.
  rewrite (exec_bind_ok _ _ _ _ _
             (device_get_ok _ _ _ _ (read_field_intro _ _ _ _ _ Hd Hk))).
  rewrite (exec_bind_ok _ _ _ _ _ (device_set_ok _ _ _ _ _ Hd)).
  rest_keeps same_devices.
Qed.

Lemma toggle_door_devices (st : State) (now : string) door v :
  devices st !! "door1" = Some door → door !! "locked" = Some v →
  devices (exec (toggle_door now) st)
  = <["door1" := <["locked" := VBool (negb (truthy v))]> door]> (devices st).
Proof.
  intros Hd Hk. unfold toggle_door.
  rewrite (exec_bind_ok _ _ _ _ _
             (device_get_ok _ _ _ _ (read_field_intro _ _ _ _ _ Hd Hk))).
  rewrite (exec_bind_ok _ _ _ _ _ (device_set_ok _ _ _ _ _ Hd)).
  rest_keeps same_devices.
Qed.

Lemma on_change_fan_devices (st : State) (value : float) (now : string)
    fan z :
  py_int_of_float value = Ok z → devices st !! "fan1" = Some fan →
  devices (exec (on_change_fan value now) st)
  = <["fan1" := <["speed" := VInt z]> fan]> (devices st).
Proof.
  intros Hz Hd. unfold on_change_fan.
  rewrite (exec_bind_ok _ _ st st z) by (unfold lift; by rewrite Hz).
  rewrite (exec_bind_ok _ _ _ _ _ (device_set_ok _ _ _ _ _ Hd)).
  rest_keeps same_devices.
Qed.

Lemma on_change_fan_raise (st : State) (value : float) (now : string) e :
  py_int_of_float value = Raise e →
  on_change_fan value now st = (Raise e, st).
Proof.
  intros Hz. unfold on_change_fan.
  apply bind_raise. unfold lift. by rewrite Hz.
Qed.

Lemma on_change_thermostat_devices (st : State) (value : float)
    (now : string) thermo :
  devices st !! "thermo1" = Some thermo →
  devices (exec (on_change_thermostat value now) st)
  = <["thermo1" := <["setpoint" := VFloat value]> thermo]> (devices st).
Proof.
  intros Hd. unfold on_change_thermostat.
  rewrite (exec_bind_ok _ _ _ _ _ (device_set_ok _ _ _ _ _ Hd)).
  rest_keeps same_devices.
Qed.
(** Reading the registry after one field of one device was written. *)
Lemma read_field_update (st st' : State) (id k : string) (v : PyVal)
    (d : PyDict) (id' k' : string) :
  devices st !! id = Some d →
  devices st' = <[id := <[k := v]> d]> (devices st) →
  read_field st' id' k'
  = if decide (id' = id ∧ k' = k) then Some v else read_field st id' k'.
Proof.
  intros Hd Hst'. unfold read_field. rewrite Hst'.
  destruct (decide (id' = id)) as [->|Hid].
  - rewrite lookup_insert_eq, Hd. cbn [mbind option_bind].
    destruct (decide (k' = k)) as [->|Hk].
    + rewrite lookup_insert_eq. by rewrite decide_True.
    + rewrite lookup_insert_ne by done. rewrite decide_False; [done|].
      intros [_ ?]. done.
  - rewrite lookup_insert_ne by done. rewrite decide_False; [done|].
    intros [? _]. done.
Qed.

Lemma read_field_same (st st' : State) (id k : string) :
  devices st' = devices st → read_field st' id k = read_field st id k.
Proof. intros Hd. unfold read_field. by rewrite Hd. Qed.

Lemma registry_same (st st' : State) is_on speed setpoint :
  devices st' = devices st →
  registry st is_on speed setpoint → registry st' is_on speed setpoint.
Proof.
  intros Hd (Hl & Hf & Ht). unfold registry.
  by rewrite !(read_field_same st st' _ _ Hd).
Qed.

Lemma well_typed_same (st st' : State) :
  devices st' = devices st → well_typed st → well_typed st'.
Proof.
  intros Hd (b & s & sp & l & Hreg & Hdoor). exists b, s, sp, l. split.
  - by apply (registry_same st).
  - by rewrite (read_field_same st st' _ _ Hd).
Qed.

Lemma in_domain_same (st st' : State) :
  devices st' = devices st → in_domain st → in_domain st'.
Proof.
  intros Hd (b & s & sp & Hreg & Hs). exists b, s, sp. split; [|done].
  by apply (registry_same st).
Qed.

Lemma read_field_written (st st' : State) (id k : string) (v : PyVal)
    (d : PyDict) :
  devices st !! id = Some d →
  devices st' = <[id := <[k := v]> d]> (devices st) →
  read_field st' id k = Some v.
Proof.
  intros Hd Hst'. rewrite (read_field_update st st' id k v d id k Hd Hst').
  by rewrite decide_True.
Qed.

Lemma read_field_other (st st' : State) (id k : string) (v : PyVal)
    (d : PyDict) (id' k' : string) :
  devices st !! id = Some d →
  devices st' = <[id := <[k := v]> d]> (devices st) →
  id' ≠ id ∨ k' ≠ k →
  read_field st' id' k' = read_field st id' k'.
Proof.
  intros Hd Hst' Hne.
  rewrite (read_field_update st st' id k v d id' k' Hd Hst').
  rewrite decide_False; [done|]. intros [? ?]. destruct Hne; done.
Qed.

(** Rewrite every read of the registry of [st'] into a read of [st] or
    into the value just written. *)
Ltac reads_after Hd Hst' :=
  unfold registry;
  repeat first
    [ rewrite (read_field_written _ _ _ _ _ _ Hd Hst')
    | rewrite (read_field_other _ _ _ _ _ _ _ _ Hd Hst')
        by (left; discriminate) ].

Lemma well_typed_write_bool (st st' : State) (id k : string) (b : bool)
    (d : PyDict) :
  (id = "light1" ∧ k = "is_on") ∨ (id = "door1" ∧ k = "locked") →
  devices st !! id = Some d →
  devices st' = <[id := <[k := VBool b]> d]> (devices st) →
  well_typed st → well_typed st'.
Proof.
  intros [[-> ->]|[-> ->]] Hd Hst' (b0 & s & sp & l & (Hl & Hf & Ht) & Hdoor).
  - exists b, s, sp, l. reads_after Hd Hst'. done.
  - exists b0, s, sp, b. reads_after Hd Hst'. done.
Qed.

Lemma well_typed_write_speed (st st' : State) (z : Z) (d : PyDict) :
  devices st !! "fan1" = Some d →
  devices st' = <["fan1" := <["speed" := VInt z]> d]> (devices st) →
  well_typed st → well_typed st'.
Proof.
  intros Hd Hst' (b0 & s & sp & l & (Hl & Hf & Ht) & Hdoor).
  exists b0, z, sp, l. reads_after Hd Hst'. done.
Qed.

Lemma well_typed_write_setpoint (st st' : State) (f : float) (d : PyDict) :
  devices st !! "thermo1" = Some d →
  devices st' = <["thermo1" := <["setpoint" := VFloat f]> d]> (devices st) →
  well_typed st → well_typed st'.
Proof.
  intros Hd Hst' (b0 & s & sp & l & (Hl & Hf & Ht) & Hdoor).
  exists b0, s, f, l. reads_after Hd Hst'. done.
Qed.

Lemma in_domain_write_bool (st st' : State) (id k : string) (b : bool)
    (d : PyDict) :
  (id = "light1" ∧ k = "is_on") ∨ (id = "door1" ∧ k = "locked") →
  devices st !! id = Some d →
  devices st' = <[id := <[k := VBool b]> d]> (devices st) →
  in_domain st → in_domain st'.
Proof.
  intros [[-> ->]|[-> ->]] Hd Hst' (b0 & s & sp & (Hl & Hf & Ht) & Hs).
  - exists b, s, sp. reads_after Hd Hst'. done.
  - exists b0, s, sp. reads_after Hd Hst'. done.
Qed.

Lemma in_domain_write_speed (st st' : State) (z : Z) (d : PyDict) :
  (0 ≤ z ≤ 3)%Z →
  devices st !! "fan1" = Some d →
  devices st' = <["fan1" := <["speed" := VInt z]> d]> (devices st) →
  in_domain st → in_domain st'.
Proof.
  intros Hz Hd Hst' (b0 & s & sp & (Hl & Hf & Ht) & Hs).
  exists b0, z, sp. reads_after Hd Hst'. done.
Qed.

Lemma in_domain_write_setpoint (st st' : State) (f : float) (d : PyDict) :
  devices st !! "thermo1" = Some d →
  devices st' = <["thermo1" := <["setpoint" := VFloat f]> d]> (devices st) →
  in_domain st → in_domain st'.
Proof.
  intros Hd Hst' (b0 & s & sp & (Hl & Hf & Ht) & Hs).
  exists b0, s, f. reads_after Hd Hst'. done.
Qed.
End Callbacks.

(** ** The running program *)

Section Running.
Context `{Platform}.

Lemma keeps_simulator_step (R : State → State → Prop) `{!Stable R}
    (stable_trace : ∀ st b, R st (set_bus_trace b st)) (t : Z) :
  keeps R (simulator_step t).
Proof.
  unfold simulator_step. apply keeps_bind; [exact _ | |].
  - apply keeps_compute_total_power; exact _.
  - intros w. apply keeps_bind; [exact _ | | intros _; apply keeps_ret; exact _].
    unfold send_all.
    apply keeps_modify; [exact _|]. intros st. apply stable_trace.
Qed.

(** A step of the program under a relation every write respects. *)
Lemma step_keeps (R : State → State → Prop) `{!Stable R}
    (stable_devices : ∀ st d, R st (set_devices d st))
    (stable_trace : ∀ st b, R st (set_bus_trace b st))
    (sys : System) (ev : Event) :
  R (program sys) (program (step sys ev)).
Proof.
  destruct ev; cbn [step program].
  - by apply keeps_toggle_light.
  - by apply keeps_on_change_fan.
  - by apply keeps_on_change_thermostat.
  - by apply keeps_toggle_door.
  - apply keeps_route_change; exact _.
  - destruct (sampler sys) as [t|]; [|apply stable_refl].
    pose proof (keeps_simulator_step R stable_trace t (program sys)) as Hk.
    unfold exec in Hk.
    destruct (simulator_step t (program sys)) as [[t'|e] st']; exact Hk.
  - apply keeps_handle_message; exact _.
Qed.

(** A step other than the sampler's, under a relation the writes to
    [devices] respect. *)
Lemma step_keeps_quiet (R : State → State → Prop) `{!Stable R}
    (stable_devices : ∀ st d, R st (set_devices d st))
    (sys : System) (ev : Event) :
  ev ≠ Tick →
  R (program sys) (program (step sys ev)) ∧
  sampler (step sys ev) = sampler sys.
Proof.
  intros Hev. destruct ev; cbn [step program sampler]; try done;
    (split; [|reflexivity]).
  - by apply keeps_toggle_light.
  - by apply keeps_on_change_fan.
  - by apply keeps_on_change_thermostat.
  - by apply keeps_toggle_door.
  - apply keeps_route_change; exact _.
  - apply keeps_handle_message; exact _.
Qed.

Lemma simulator_step_ok (st : State) (t : Z) (w : float) :
  compute_total_power st = (Ok w, st) →
  simulator_step t st
  = (Ok (t + 1)%Z,
     set_bus_trace (bus_trace st ++ [power_sample_msg t w]) st).
Proof.
  intros Hw. unfold simulator_step.
  rewrite (bind_ok _ _ _ _ _ Hw). reflexivity.
Qed.

Lemma simulator_step_raise (st : State) (t : Z) (e : PyExc) :
  compute_total_power st = (Raise e, st) →
  simulator_step t st = (Raise e, st).
Proof. intros He. unfold simulator_step. by apply bind_raise. Qed.

Lemma compute_total_power_pair (st : State) :
  compute_total_power st = (outcome compute_total_power st, st).
Proof.
  destruct (reads_compute_total_power st) as [Hst _].
  unfold exec, outcome in *.
  destruct (compute_total_power st) as [r st']. cbn in *. by subst.
Qed.

(** What one successful turn of the sampler publishes. *)
Lemma published_after_sample (st : State) (t : Z) (w : float) :
  published_samples
    (set_bus_trace (bus_trace st ++ [power_sample_msg t w]) st)
  = published_samples st ++ [power_sample_msg t w].
Proof.
  unfold published_samples. cbn [bus_trace set_bus_trace].
  rewrite List.filter_app. reflexivity.
Qed.
Lemma same_devices_of (sys : System) (ev : Event) :
  match ev with
  | Navigate _ | Tick | Deliver _ => True
  | _ => False
  end →
  devices (program (step sys ev)) = devices (program sys).
Proof.
  destruct ev; cbn [step program]; try done; intros _.
  - apply (keeps_route_change same_devices).
  - destruct (sampler sys) as [t|]; [|done].
    assert (Htrace : ∀ (st : State) b,
               same_devices st (set_bus_trace b st)) by done.
    pose proof (keeps_simulator_step same_devices Htrace t (program sys))
      as Hk.
    unfold exec in Hk.
    destruct (simulator_step t (program sys)) as [[t'|e] st']; exact Hk.
  - apply (keeps_handle_message same_devices).
Qed.

Lemma fan_slider_int (value : float) :
  In value fan_slider_values →
  ∃ z : Z, py_int_of_float value = Ok z ∧ (0 ≤ z ≤ 3)%Z.
Proof.
  intros [<-|[<-|[<-|[<-|[]]]]].
  - exists 0%Z. split; [reflexivity | lia].
  - exists 1%Z. split; [reflexivity | lia].
  - exists 2%Z. split; [reflexivity | lia].
  - exists 3%Z. split; [reflexivity | lia].
Qed.

Lemma well_typed_light (st : State) :
  well_typed st →
  ∃ light b, devices st !! "light1" = Some light ∧
             light !! "is_on" = Some (VBool b).
Proof.
  intros (b & s & sp & l & (Hl & _) & _).
  apply read_field_Some in Hl as (light & ? & ?). eauto.
Qed.

Lemma well_typed_door (st : State) :
  well_typed st →
  ∃ door b, devices st !! "door1" = Some door ∧
            door !! "locked" = Some (VBool b).
Proof.
  intros (b & s & sp & l & _ & Hd).
  apply read_field_Some in Hd as (door & ? & ?). eauto.
Qed.

Lemma well_typed_fan (st : State) :
  well_typed st → ∃ fan, devices st !! "fan1" = Some fan.
Proof.
  intros (b & s & sp & l & (_ & Hf & _) & _).
  apply read_field_Some in Hf as (fan & ? & ?). eauto.
Qed.

Lemma well_typed_thermo (st : State) :
  well_typed st → ∃ thermo, devices st !! "thermo1" = Some thermo.
Proof.
  intros (b & s & sp & l & (_ & _ & Ht) & _).
  apply read_field_Some in Ht as (thermo & ? & ?). eauto.
Qed.

(** Every step leaves each device with a value of its kind. *)
Lemma step_well_typed (sys : System) (ev : Event) :
  well_typed (program sys) → well_typed (program (step sys ev)).
Proof.
  intros Hwt. destruct ev as [now|v now|v now|now|r| |msg];
    try (apply (well_typed_same (program sys)); [|exact Hwt];
         by apply same_devices_of).
  - destruct (well_typed_light _ Hwt) as (light & b & Hd & Hk).
    apply (well_typed_write_bool (program sys) _ "light1" "is_on"
             (negb (truthy (VBool b))) light); [by left | done | | done].
    apply (toggle_light_devices _ now _ _ Hd Hk).
  - destruct (well_typed_fan _ Hwt) as (fan & Hd).
    cbn [step program].
    destruct (py_int_of_float v) as [z|e] eqn:Hz.
    + apply (well_typed_write_speed (program sys) _ z fan); [done | | done].
      by apply on_change_fan_devices.
    + unfold exec. by rewrite (on_change_fan_raise _ _ _ _ Hz).
  - destruct (well_typed_thermo _ Hwt) as (thermo & Hd).
    apply (well_typed_write_setpoint (program sys) _ v thermo);
      [done | | done].
    by apply on_change_thermostat_devices.
  - destruct (well_typed_door _ Hwt) as (door & b & Hd & Hk).
    apply (well_typed_write_bool (program sys) _ "door1" "locked"
             (negb (truthy (VBool b))) door); [by right | done | | done].
    apply (toggle_door_devices _ now _ _ Hd Hk).
Qed.

Lemma run_cons (sys : System) (ev : Event) (evs : list Event) :
  run sys (ev :: evs) = run (step sys ev) evs.
Proof. reflexivity. Qed.

Lemma run_well_typed (sys : System) (evs : list Event) :
  well_typed (program sys) → well_typed (program (run sys evs)).
Proof.
  revert sys. induction evs as [|ev evs IH]; intros sys Hwt; [exact Hwt|].
  rewrite run_cons. apply IH. by apply step_well_typed.
Qed.

Lemma boot_well_typed (u : UI) : well_typed (program (boot u)).
Proof.
  exists false, 0%Z, 22%float, true. repeat split; reflexivity.
Qed.

(** Every state the program reaches is well typed. *)
Lemma reachable_well_typed (u : UI) (evs : list Event) :
  well_typed (program (run (boot u) evs)).
Proof. apply run_well_typed, boot_well_typed. Qed.

Lemma boot_in_domain (u : UI) :
  well_typed (program (boot u)) ∧ in_domain (program (boot u)).
Proof.
  split; [apply boot_well_typed|].
  exists false, 0%Z, 22%float. split; [repeat split; reflexivity | lia].
Qed.
(** With events that come from the widgets as they are configured, the
    fan speed stays within 0..3. *)
Lemma step_in_domain (sys : System) (ev : Event) :
  from_widgets ev →
  well_typed (program sys) → in_domain (program sys) →
  in_domain (program (step sys ev)).
Proof.
  intros Hev Hwt Hdom. destruct ev as [now|v now|v now|now|r| |msg];
    try (apply (in_domain_same (program sys)); [|exact Hdom];
         by apply same_devices_of).
  - destruct (well_typed_light _ Hwt) as (light & b & Hd & Hk).
    apply (in_domain_write_bool (program sys) _ "light1" "is_on"
             (negb (truthy (VBool b))) light); [by left | done | | done].
    apply (toggle_light_devices _ now _ _ Hd Hk).
  - destruct (well_typed_fan _ Hwt) as (fan & Hd).
    destruct (fan_slider_int v Hev) as (z & Hz & Hrange).
    apply (in_domain_write_speed (program sys) _ z fan);
      [done | done | | done].
    by apply on_change_fan_devices.
  - destruct (well_typed_thermo _ Hwt) as (thermo & Hd).
    apply (in_domain_write_setpoint (program sys) _ v thermo);
      [done | | done].
    by apply on_change_thermostat_devices.
  - destruct (well_typed_door _ Hwt) as (door & b & Hd & Hk).
    apply (in_domain_write_bool (program sys) _ "door1" "locked"
             (negb (truthy (VBool b))) door); [by right | done | | done].
    apply (toggle_door_devices _ now _ _ Hd Hk).
Qed.

Lemma seq_indices_S (n : nat) :
  map (λ i : nat, Some (VInt (Z.of_nat i))) (seq 0 (S n))
  = map (λ i : nat, Some (VInt (Z.of_nat i))) (seq 0 n)
    ++ [Some (VInt (Z.of_nat n))].
Proof. rewrite seq_S, map_app. reflexivity. Qed.

(** One step keeps the published indices in sequence. *)
Lemma step_sampler_inv (sys : System) (ev : Event) :
  sampler_inv sys → sampler_inv (step sys ev).
Proof.
  intros (n & Htimes & Ht).
  assert (ev = Tick ∨ ev ≠ Tick) as [->|Hev]
    by (destruct ev; first [by left | by right]).
  - cbn [step]. destruct (sampler sys) as [t|] eqn:Hs.
    + specialize (Ht t eq_refl). subst t.
      pose proof (compute_total_power_pair (program sys)) as Hpair.
      destruct (outcome compute_total_power (program sys)) as [w|e].
      * rewrite (simulator_step_ok _ _ _ Hpair).
        exists (S n). cbn [program sampler]. split.
        -- rewrite published_after_sample, map_app, Htimes, seq_indices_S.
           reflexivity.
        -- intros t [= <-]. lia.
      * rewrite (simulator_step_raise _ _ _ Hpair).
        exists n. cbn [program sampler]. split; [exact Htimes | done].
    + exists n. split; [exact Htimes|]. rewrite Hs. done.
  - assert (Hdev : ∀ (st : State) d, same_samples st (set_devices d st))
      by done.
    destruct (step_keeps_quiet same_samples Hdev sys ev Hev) as [Hsame Hsam].
    exists n. unfold same_samples in Hsame. rewrite Hsame, Hsam. done.
Qed.

Lemma run_sampler_inv (sys : System) (evs : list Event) :
  sampler_inv sys → sampler_inv (run sys evs).
Proof.
  revert sys. induction evs as [|ev evs IH]; intros sys Hinv; [exact Hinv|].
  rewrite run_cons. apply IH. by apply step_sampler_inv.
Qed.

Lemma boot_sampler_inv (u : UI) : sampler_inv (boot u).
Proof. exists 0%nat. split; [reflexivity|]. intros t [= <-]. reflexivity. Qed.
Lemma ticks_quiet (ev : Event) (evs : list Event) :
  ev ≠ Tick → ticks (ev :: evs) = ticks evs.
Proof. intros Hev. destruct ev; done. Qed.

(** With events from the widgets, every turn of the sampler publishes. *)
Lemma run_progress (sys : System) (evs : list Event) (t : Z) :
  Forall from_widgets evs →
  well_typed (program sys) → in_domain (program sys) →
  sampler sys = Some t →
  sampler (run sys evs) = Some (t + Z.of_nat (ticks evs))%Z ∧
  length (published_samples (program (run sys evs)))
  = (length (published_samples (program sys)) + ticks evs)%nat.
Proof.
  revert sys t. induction evs as [|ev evs IH]; intros sys t Hevs Hwt Hdom Hs.
  { cbn. rewrite Z.add_0_r, Nat.add_0_r. done. }
  apply Forall_cons in Hevs as [Hev Hevs]. rewrite run_cons.
  pose proof (step_well_typed sys ev Hwt) as Hwt'.
  pose proof (step_in_domain sys ev Hev Hwt Hdom) as Hdom'.
  assert (ev = Tick ∨ ev ≠ Tick) as [->|Hne]
    by (destruct ev; first [by left | by right]).
  - destruct Hdom as (b & s & sp & Hreg & Hrange).
    pose proof (compute_total_power_domain _ _ _ _ Hreg Hrange) as Hw.
    assert (Hstep : step sys Tick
                    = mkSystem
                        (set_bus_trace
                           (bus_trace (program sys)
                            ++ [power_sample_msg t (totalPower b s sp)])
                           (program sys))
                        (Some (t + 1)%Z)).
    { cbn [step]. rewrite Hs, (simulator_step_ok _ _ _ Hw). reflexivity. }
    destruct (IH (step sys Tick) (t + 1)%Z Hevs Hwt' Hdom') as [IHs IHn].
    { rewrite Hstep. reflexivity. }
    rewrite IHs, IHn. rewrite Hstep at 1. cbn [program ticks].
    rewrite published_after_sample, length_app. cbn [length].
    split; [f_equal; lia | lia].
  - assert (Hdev : ∀ (st : State) d, same_samples st (set_devices d st))
      by done.
    destruct (step_keeps_quiet same_samples Hdev sys ev Hne) as [Hsame Hsam].
    destruct (IH (step sys ev) t Hevs Hwt' Hdom') as [IHs IHn].
    { by rewrite Hsam. }
    rewrite IHs, IHn, (ticks_quiet ev evs Hne).
    unfold same_samples in Hsame. rewrite Hsame. done.
Qed.

Lemma filterM_log_is_for (id : string) (l : list PyDict) :
  Forall complete_log l →
  ∃ l', filterM (log_is_for id) l = Ok l' ∧ Forall complete_log l'.
Proof.
  induction 1 as [|d l Hd Hl (l' & IH & Hl')].
  { exists []. split; [reflexivity | constructor]. }
  cbn [filterM]. unfold log_is_for at 1, getitem.
  pose proof Hd as ([v Hv] & _). rewrite Hv, IH.
  destruct (eq_str v id); eexists; (split; [reflexivity|]).
  - by constructor.
  - done.
Qed.

Lemma mapM_log_line (l : list PyDict) :
  Forall complete_log l → ∃ lines, mapM log_line l = Ok lines.
Proof.
  induction 1 as [|d l Hd Hl (lines & IH)]; [by exists []|].
  cbn [mapM]. unfold log_line at 1, getitem.
  destruct Hd as (_ & [ts Hts] & [a Ha] & [us Hus]).
  rewrite Hts, Ha, Hus, IH. eauto.
Qed.
End Running.

(** ** The fan slider and the details page *)

Section Lookups.
Context `{Platform}.

(** What the fan callback returns once the value converted: whatever the
    widget layer answers to the text update. *)
Lemma on_change_fan_outcome (st : State) (value : float) (now : string)
    fan z :
  py_int_of_float value = Ok z → devices st !! "fan1" = Some fan →
  outcome (on_change_fan value now) st
  = fst (widget (SliderShow "fan1" ("Fan speed: " ++ pretty z)%string)
           (ui st)).
Proof.
  intros Hz Hd. unfold outcome, on_change_fan.
  rewrite (bind_ok _ _ st st z) by (unfold lift; by rewrite Hz).
  rewrite (bind_ok _ _ _ _ _ (device_set_ok _ _ _ _ _ Hd)).
  unfold bind at 1. unfold call_widget. cbn [ui set_devices].
  destruct (widget _ (ui st)) as [[[]|e] u]; reflexivity.
Qed.

End Lookups.

(** C3, as the specification states it, does not hold: the fan callback
    has no range check.  On the screenless platform, with the fan at
    speed 0, the slider value 5 is accepted: the callback returns
    normally and the speed is 5 afterwards. *)
Lemma fan_speed_five_is_stored :
  @outcome headless _ (on_change_fan 5 "12:00:00") (registry_with false 0 22)
    = Ok tt ∧
  read_field (registry_with false 0 22) "fan1" "speed" = Some (VInt 0) ∧
  read_field
    (@exec headless _ (on_change_fan 5 "12:00:00") (registry_with false 0 22))
    "fan1" "speed" = Some (VInt 5).
Proof. vm_compute. repeat split; reflexivity. Qed.

(** C3, amended.  The fan callback stores [int(value)] for whatever finite
    value it is given: the speed of ["fan1"] becomes that integer, every
    other field of every device stays, and the callback raises only if
    the widget layer does.  It fails, leaving the state as it was, only
    when the value has no integer part: [ValueError] for NaN,
    [OverflowError] for an infinity. *)
Theorem fan_speed_stored_unchecked `{Platform} (st : State) (value : float)
    (now : string) (fan : PyDict) :
  devices st !! "fan1" = Some fan →
  match py_int_of_float value with
  | Ok z =>
      devices (exec (on_change_fan value now) st)
      = <["fan1" := <["speed" := VInt z]> fan]> (devices st) ∧
      outcome (on_change_fan value now) st
      = fst (widget (SliderShow "fan1" ("Fan speed: " ++ pretty z)%string)
               (ui st))
  | Raise e =>
      on_change_fan value now st = (Raise e, st) ∧
      (e = ValueError ∨ e = OverflowError)
  end.
Proof.
  intros Hd. destruct (py_int_of_float value) as [z|e] eqn:Hz.
  - split.
    + by apply on_change_fan_devices.
    + by apply (on_change_fan_outcome st value now fan).
  - split; [by apply on_change_fan_raise|].
    unfold py_int_of_float in Hz.
    destruct (Prim2SF value); inversion Hz; auto.
Qed.

Lemma fan_speed_stored_unchecked_witness :
  devices (@exec headless _ (on_change_fan 5 "12:00:00")
             (registry_with false 0 22))
  = <["fan1" := <["speed" := VInt 5]> (<["speed" := VInt 0]> fan1_dict)]>
      (devices (registry_with false 0 22)) ∧
  @outcome headless _ (on_change_fan 5 "12:00:00") (registry_with false 0 22)
  = Ok tt.
Proof.
  exact (@fan_speed_stored_unchecked headless (registry_with false 0 22)
           5%float "12:00:00" (<["speed" := VInt 0]> fan1_dict) eq_refl).
Defined.




(** C6.  In every run of the program from its start, whatever the
    events and whatever the platform, the power samples handed to the
    bus carry the indices 0, 1, 2, ... in the order of publication: the
    n-th one (counting from 0) has ["time"] equal to n.  When the events
    come from the widgets as configured (fan slider positions 0..3),
    every turn of the sampler publishes one sample: after a run with k
    turns exactly k samples were published and the sampler's next index
    is k. *)
Theorem sampler_indices `{Platform} (u : UI) (evs : list Event) :
  (∀ (n : nat) (d : PyDict),
     published_samples (program (run (boot u) evs)) !! n = Some d →
     d !! "time" = Some (VInt (Z.of_nat n))) ∧
  (Forall from_widgets evs →
   length (published_samples (program (run (boot u) evs))) = ticks evs ∧
   sampler (run (boot u) evs) = Some (Z.of_nat (ticks evs))).
Proof.
  split.
  - intros n d Hn.
    destruct (run_sampler_inv (boot u) evs (boot_sampler_inv u))
      as (k & Htimes & _).
    assert (Hlook :
      map (λ d : PyDict, d !! "time")
          (published_samples (program (run (boot u) evs))) !! n
      = Some (d !! "time")) by (by rewrite list_lookup_fmap, Hn).
    rewrite Htimes, list_lookup_fmap in Hlook.
    destruct (seq 0 k !! n) as [i|] eqn:Hi; [|discriminate].
    apply lookup_seq in Hi as [-> _]. cbn in Hlook. congruence.
  - intros Hevs.
    destruct (boot_in_domain u) as [Hwt Hdom].
    destruct (run_progress (boot u) evs 0%Z Hevs Hwt Hdom eq_refl)
      as [Hs Hn].
    split; [exact Hn|]. rewrite Hs. f_equal.
Qed.

Lemma sampler_indices_witness :
  length (published_samples
            (program (@run headless (@boot headless tt)
                        [Tick; ClickLight "12:00:00"; Tick;
                         SlideFan 2 "12:00:01"; Tick]))) = 3%nat ∧
  sampler (@run headless (@boot headless tt)
             [Tick; ClickLight "12:00:00"; Tick; SlideFan 2 "12:00:01"; Tick])
  = Some 3%Z.
Proof.
  apply (@sampler_indices headless tt
           [Tick; ClickLight "12:00:00"; Tick; SlideFan 2 "12:00:01"; Tick]).
  repeat (constructor; [cbn; auto|]). constructor.
Defined.

(** C7.  The log buffer is append-only and unbounded.  After any
    sequence of deliveries, [logs] is what it was followed by the
    delivered log messages, in delivery order; when every delivered
    message is a log message these are the messages themselves and the
    length has grown by their number.  And no step of the program ever
    touches an existing entry: [logs] before a step is a prefix of
    [logs] after it. *)
Theorem log_buffer_appends `{Platform} :
  (∀ (st : State) (msgs : list PyObj),
     logs (deliver_all msgs st) = logs st ++ omap log_entry msgs) ∧
  (∀ (st : State) (msgs : list PyObj),
     Forall (λ msg, is_Some (log_entry msg)) msgs →
     map ODict (omap log_entry msgs) = msgs ∧
     length (logs (deliver_all msgs st))
     = (length (logs st) + length msgs)%nat) ∧
  (∀ (sys : System) (ev : Event),
     logs (program sys) `prefix_of` logs (program (step sys ev))).
Proof.
  split; [|split].
  - intros st msgs. apply deliver_all_logs.
  - intros st msgs Hall.
    assert (Hmap : map ODict (omap log_entry msgs) = msgs).
    { induction Hall as [|msg msgs [d Hd] _ IH]; [reflexivity|].
      cbn [omap list_omap]. rewrite Hd. cbn [map].
      change (map ODict (omap log_entry msgs) = msgs) in IH. rewrite IH.
      f_equal. destruct msg as [v|d']; [discriminate|].
      cbn [log_entry] in Hd. destruct (get_eq_str d' "type" "log");
        congruence. }
    split; [exact Hmap|].
    rewrite deliver_all_logs, length_app. f_equal.
    rewrite <- Hmap at 2. by rewrite length_map.
  - intros sys ev.
    apply (step_keeps logs_grow); intros st x; unfold logs_grow; done.
Qed.

Lemma log_buffer_appends_witness :
  map ODict (omap log_entry [ODict (<["type" := VStr "log"]> ∅)])
  = [ODict (<["type" := VStr "log"]> ∅)] ∧
  length (logs (@deliver_all headless [ODict (<["type" := VStr "log"]> ∅)]
                  (registry_with true 0 19)))
  = (length (logs (registry_with true 0 19)) + 1)%nat.
Proof.
  destruct (@log_buffer_appends headless) as (_ & Hlen & _).
  apply (Hlen (registry_with true 0 19) [ODict (<["type" := VStr "log"]> ∅)]).
  repeat constructor. eexists. reflexivity.
Defined.

(** C9.  In a state where every device holds a value of its kind, one
    press of the light button writes the negation of ["is_on"] into
    ["light1"] and changes nothing else in [devices], and a second press
    gives back the devices the first one found.  The same holds for the
    door button and ["locked"] of ["door1"]. *)
Theorem toggles_are_involutions `{Platform} (st : State)
    (now1 now2 : string) :
  well_typed st →
  (∃ (light : PyDict) (is_on : bool),
     devices st !! "light1" = Some light ∧
     light !! "is_on" = Some (VBool is_on) ∧
     devices (exec (toggle_light now1) st)
     = <["light1" := <["is_on" := VBool (negb is_on)]> light]> (devices st) ∧
     devices (exec (toggle_light now2) (exec (toggle_light now1) st))
     = devices st) ∧
  (∃ (door : PyDict) (locked : bool),
     devices st !! "door1" = Some door ∧
     door !! "locked" = Some (VBool locked) ∧
     devices (exec (toggle_door now1) st)
     = <["door1" := <["locked" := VBool (negb locked)]> door]> (devices st) ∧
     devices (exec (toggle_door now2) (exec (toggle_door now1) st))
     = devices st).
Proof.
  intros Hwt. split.
  - destruct (well_typed_light st Hwt) as (light & b & Hd & Hk).
    exists light, b. do 2 (split; [done|]).
    pose proof (toggle_light_devices st now1 light (VBool b) Hd Hk) as H1.
    cbn [truthy] in H1. split; [exact H1|].
    rewrite (toggle_light_devices _ now2
               (<["is_on" := VBool (negb b)]> light) (VBool (negb b)));
      [| rewrite H1; apply lookup_insert_eq | apply lookup_insert_eq].
    cbn [truthy]. rewrite H1, insert_insert_eq, insert_insert_eq, negb_involutive.
    rewrite (insert_id light) by done. by apply insert_id.
  - destruct (well_typed_door st Hwt) as (door & b & Hd & Hk).
    exists door, b. do 2 (split; [done|]).
    pose proof (toggle_door_devices st now1 door (VBool b) Hd Hk) as H1.
    cbn [truthy] in H1. split; [exact H1|].
    rewrite (toggle_door_devices _ now2
               (<["locked" := VBool (negb b)]> door) (VBool (negb b)));
      [| rewrite H1; apply lookup_insert_eq | apply lookup_insert_eq].
    cbn [truthy]. rewrite H1, insert_insert_eq, insert_insert_eq, negb_involutive.
    rewrite (insert_id door) by done. by apply insert_id.
Qed.

Lemma toggles_are_involutions_witness :
  devices (@exec headless _ (toggle_light "12:00:01")
             (@exec headless _ (toggle_light "12:00:00")
                (registry_with true 2 22)))
  = devices (registry_with true 2 22).
Proof.
  assert (Hwt : @well_typed headless (registry_with true 2 22)).
  { exists true, 2%Z, 22%float, true. repeat split; reflexivity. }
  destruct (@toggles_are_involutions headless (registry_with true 2 22)
              "12:00:00" "12:00:01" Hwt)
    as [(light & b & _ & _ & _ & Hback) _].
  exact Hback.
Defined.

(** ** More on the subscriber *)

Section SubscriberEdges.
Context `{Platform}.

Lemma is_sample_not_log (d : PyDict) :
  is_sample d = true → get_eq_str d "type" "log" = false.
Proof.
  unfold is_sample, get_eq_str.
  destruct (d !! "type") as [[| | | |s]|]; try done.
  intros ->%String.eqb_eq. reflexivity.
Qed.

Lemma handle_message_sample_keys (st : State) (d : PyDict) :
  is_sample d = true →
  handle_message (ODict d) st
  = match d !! "time" with
    | None => (Raise (KeyError "time"), st)
    | Some t =>
        match d !! "total_power" with
        | None => (Raise (KeyError "total_power"), st)
        | Some p =>
            (outcome (handle_message (ODict d)) st,
             exec (handle_message (ODict d)) st)
        end
    end.
Proof.
  intros Hs. pose proof (is_sample_not_log d Hs) as Hl.
  unfold is_sample in Hs.
  destruct (d !! "time") as [t|] eqn:Et.
  - destruct (d !! "total_power") as [p|] eqn:Ep.
    + unfold outcome, exec. by destruct (handle_message (ODict d) st).
    + unfold handle_message. rewrite Hl, Hs. unfold getitem. run_step.
      rewrite Et. run_step. rewrite Ep. reflexivity.
  - unfold handle_message. rewrite Hl, Hs. unfold getitem. run_step.
    rewrite Et. reflexivity.
Qed.

Lemma handle_message_log_table (st : State) (d : PyDict) :
  get_eq_str d "type" "log" = true →
  logs (exec (handle_message (ODict d)) st) = logs st ++ [d] ∧
  log_table (exec (handle_message (ODict d)) st)
  = match log_table st with
    | None => None
    | Some rows =>
        match log_cells d with
        | Ok row => Some (rows ++ [row])
        | Raise _ => Some rows
        end
    end.
Proof.
  intros Hl. unfold handle_message. rewrite Hl. run_step.
  destruct (log_table st) as [rows|] eqn:Et; run_step; [|by rewrite Et].
  destruct (log_cells d) as [row|e]; run_step; [|by rewrite Et].
  destruct (widget LogTableUpdate (ui st)) as [r u]. done.
Qed.

Lemma handle_message_other_table (st : State) (msg : PyObj) :
  log_entry msg = None →
  log_table (exec (handle_message msg) st) = log_table st.
Proof.
  destruct msg as [v|d]; [done|]. cbn [log_entry].
  destruct (get_eq_str d "type" "log") eqn:Hl; [done|]. intros _.
  unfold handle_message. rewrite Hl.
  destruct (get_eq_str d "type" "power_sample"); [|done].
  unfold getitem. run_step.
  destruct (d !! "time") as [t|]; run_step; [|done].
  destruct (d !! "total_power") as [p|]; run_step; [|done].
  destruct (50 <? length (power_history st ++ [(t, p)]))%nat; run_step.
  - destruct (power_chart st) eqn:Hc; [|by run_step].
    match goal with |- context [update_power_chart ?s] =>
      destruct (update_power_chart_frame s) as (r & u & ->) end.
    done.
  - destruct (power_chart st) eqn:Hc; [|by run_step].
    match goal with |- context [update_power_chart ?s] =>
      destruct (update_power_chart_frame s) as (r & u & ->) end.
    done.
Qed.

Lemma push_sample_cases (h : list (PyVal * PyVal)) (s : PyVal * PyVal) :
  ((length h < 50)%nat → push_sample h s = h ++ [s]) ∧
  ((50 ≤ length h)%nat →
   push_sample h s = tail h ++ [s] ∧
   length (push_sample h s) = length h).
Proof.
  unfold push_sample. cbv zeta. rewrite length_app. cbn [length].
  split; intros Hh.
  - destruct (Nat.ltb_spec 50 (length h + 1)); [lia | reflexivity].
  - destruct (Nat.ltb_spec 50 (length h + 1)); [|lia].
    destruct h as [|x h]; [cbn in Hh; lia|]. cbn [tail app].
    split; [reflexivity|]. rewrite length_app. cbn. lia.
Qed.
End SubscriberEdges.

(** X1.  A power sample that lacks ["time"], or has it but lacks
    ["total_power"], is not stored: [handle_message] raises the
    [KeyError] of the first missing key and leaves the whole state as it
    was. *)
Theorem sample_without_fields_rejected `{Platform} (st : State)
    (d : PyDict) :
  is_sample d = true →
  (d !! "time" = None →
   handle_message (ODict d) st = (Raise (KeyError "time"), st)) ∧
  (is_Some (d !! "time") → d !! "total_power" = None →
   handle_message (ODict d) st = (Raise (KeyError "total_power"), st)).
Proof.
  intros Hs. rewrite (handle_message_sample_keys st d Hs). split.
  - intros ->. reflexivity.
  - intros [t ->] ->. reflexivity.
Qed.

Lemma sample_without_fields_rejected_witness :
  @handle_message headless
     (ODict (<["type" := VStr "power_sample"]> (<["time" := VInt 3]> ∅)))
     (registry_with true 1 22)
  = (Raise (KeyError "total_power"), registry_with true 1 22).
Proof.
  assert (Hs : is_sample
                 (<["type" := VStr "power_sample"]> (<["time" := VInt 3]> ∅))
               = true) by (vm_compute; reflexivity).
  destruct (@sample_without_fields_rejected headless
              (registry_with true 1 22) _ Hs) as [_ Hpower].
  apply Hpower; [eexists|]; vm_compute; reflexivity.
Defined.

(** X2.  A log message is saved before its table row is built: when the
    log table exists and the message lacks one of the four fields a row
    shows, [handle_message] raises the [KeyError], the message is
    nevertheless at the end of [logs], and the table has no row for it. *)
Theorem log_saved_before_row `{Platform} (st : State) (d : PyDict)
    (rows : list LogRow) (e : PyExc) :
  get_eq_str d "type" "log" = true →
  log_table st = Some rows → log_cells d = Raise e →
  handle_message (ODict d) st = (Raise e, set_logs (logs st ++ [d]) st).
Proof.
  intros Hl Ht Hc. unfold handle_message. rewrite Hl. run_step.
  rewrite Ht. run_step. rewrite Hc. reflexivity.
Qed.

Lemma log_saved_before_row_witness :
  @handle_message headless (ODict (<["type" := VStr "log"]> ∅))
     (@set_log_table headless (Some []) (registry_with true 1 22))
  = (Raise (KeyError "timestamp"),
     @set_logs headless [<["type" := VStr "log"]> ∅]
       (@set_log_table headless (Some []) (registry_with true 1 22))).
Proof.
  apply (@log_saved_before_row headless
           (@set_log_table headless (Some []) (registry_with true 1 22))
           (<["type" := VStr "log"]> ∅) [] (KeyError "timestamp"));
    vm_compute; reflexivity.
Defined.

(** X3.  Receiving a sample that has both fields appends it to the power
    history when fewer than 50 entries are held, and otherwise removes
    exactly one entry, the oldest, and appends it: a history of 50 stays
    at 50, and a longer one would keep its length. *)
Theorem sample_evicts_oldest `{Platform} (st : State) (msg : PyObj)
    (s : PyVal * PyVal) :
  sample_entry msg = Some s →
  ((length (power_history st) < 50)%nat →
   power_history (exec (handle_message msg) st) = power_history st ++ [s]) ∧
  ((50 ≤ length (power_history st))%nat →
   power_history (exec (handle_message msg) st)
   = tail (power_history st) ++ [s] ∧
   length (power_history (exec (handle_message msg) st))
   = length (power_history st)).
Proof.
  intros Hs.
  destruct (handle_message_effect msg st) as (_ & _ & -> & _).
  rewrite Hs. apply push_sample_cases.
Qed.

Lemma sample_evicts_oldest_witness :
  power_history
    (@exec headless _ (handle_message (sample_at (λ _, 40%float) 7))
       (registry_with true 0 19))
  = [history_entry (λ _, 40%float) 7].
Proof.
  assert (Hs : sample_entry (sample_at (λ _, 40%float) 7)
               = Some (history_entry (λ _, 40%float) 7))
    by (vm_compute; reflexivity).
  destruct (@sample_evicts_oldest headless (registry_with true 0 19) _ _ Hs)
    as [Hshort _].
  apply Hshort. cbn. lia.
Defined.

(** X4.  From an empty history, after the samples with indices
    0..n-1 were received in order, the history holds the last
    [min n 50] of them, indices [n - 50]..[n - 1], for every [n]. *)
Theorem power_history_window `{Platform} (st : State)
    (power : nat → float) (n : nat) :
  power_history st = [] →
  power_history (deliver_all (map (sample_at power) (seq 0 n)) st)
  = map (history_entry power) (seq (n - 50) (min n 50)).
Proof.
  intros Hst. rewrite deliver_all_history, omap_sample_at, Hst.
  apply (fold_push_sample_window (λ e, e) (history_entry power) n).
Qed.

Lemma power_history_window_witness :
  power_history
    (@deliver_all headless (map (sample_at (λ _, 40%float)) (seq 0 3))
       (registry_with true 0 19))
  = map (history_entry (λ _, 40%float)) (seq (3 - 50) (min 3 50)).
Proof.
  apply (@power_history_window headless). reflexivity.
Defined.

(** X5.  Deliveries never write to [devices], and the two buffers do not
    interfere: the power history after a sequence of deliveries depends
    only on the history before and on the samples among the messages,
    whatever log messages and other objects are interleaved with them. *)
Theorem buffers_independent `{Platform} (st1 st2 : State)
    (msgs1 msgs2 : list PyObj) :
  devices (deliver_all msgs1 st1) = devices st1 ∧
  (power_history st1 = power_history st2 →
   omap sample_entry msgs1 = omap sample_entry msgs2 →
   power_history (deliver_all msgs1 st1)
   = power_history (deliver_all msgs2 st2)).
Proof.
  split.
  - revert st1. induction msgs1 as [|msg msgs IH]; intros st; [done|].
    rewrite deliver_all_cons, IH.
    by destruct (handle_message_effect msg st) as (-> & _).
  - intros Hh Hm. rewrite !deliver_all_history. by rewrite Hh, Hm.
Qed.

Lemma buffers_independent_witness :
  power_history
    (@deliver_all headless
       [ODict (<["type" := VStr "log"]> ∅); sample_at (λ _, 40%float) 0]
       (registry_with true 0 19))
  = power_history
      (@deliver_all headless [sample_at (λ _, 40%float) 0]
         (registry_with false 2 25)).
Proof.
  destruct (@buffers_independent headless (registry_with true 0 19)
              (registry_with false 2 25)
              [ODict (<["type" := VStr "log"]> ∅);
               sample_at (λ _, 40%float) 0]
              [sample_at (λ _, 40%float) 0]) as [_ Hsame].
  apply Hsame; vm_compute; reflexivity.
Defined.

(** ** Publishing *)

Section Publishing.
Context `{Platform}.

Lemma publish_log_send (device_id action now : string) :
  publish_log device_id action now
  = send_all (log_message device_id action now).
Proof. reflexivity. Qed.

Lemma log_message_complete (device_id action now : string) :
  complete_log (log_message device_id action now).
Proof. repeat split; eexists; reflexivity. Qed.

Lemma log_entry_log_message (device_id action now : string) :
  log_entry (ODict (log_message device_id action now))
  = Some (log_message device_id action now).
Proof. reflexivity. Qed.

Lemma sample_entry_log_message (device_id action now : string) :
  sample_entry (ODict (log_message device_id action now)) = None.
Proof. reflexivity. Qed.

Lemma publish_log_effect (st : State) (device_id action now : string) :
  outcome (publish_log device_id action now) st = Ok tt ∧
  devices (exec (publish_log device_id action now) st) = devices st ∧
  logs (exec (publish_log device_id action now) st) = logs st ∧
  power_history (exec (publish_log device_id action now) st)
  = power_history st ∧
  bus_trace (exec (publish_log device_id action now) st)
  = bus_trace st ++ [log_message device_id action now].
Proof. rewrite publish_log_send. done. Qed.

(** The part of a card callback after the write to [devices]. *)
Lemma card_tail (st : State) (show : WidgetOp) (id action now : string) :
  let m :=
    bind (bind (call_widget show) (λ _, publish_log id action now))
         (λ _, call_widget (CardUpdate id)) in
  (fst (widget show (ui st)) = Ok tt →
   devices (exec m st) = devices st ∧
   logs (exec m st) = logs st ∧
   bus_trace (exec m st) = bus_trace st ++ [log_message id action now]) ∧
  (∀ e, fst (widget show (ui st)) = Raise e →
        m st = (Raise e, set_ui (snd (widget show (ui st))) st)).
Proof.
  cbv zeta. split.
  - intros Hok.
    assert (Hshow : call_widget show st
                    = (Ok tt, set_ui (snd (widget show (ui st))) st)).
    { unfold call_widget. destruct (widget show (ui st)) as [r u].
      cbn in Hok. by subst r. }
    rewrite (exec_bind_ok _ _ st
               (exec (publish_log id action now)
                  (set_ui (snd (widget show (ui st))) st)) tt).
    2:{ rewrite (bind_ok _ _ _ _ _ Hshow).
        destruct (publish_log_effect
                    (set_ui (snd (widget show (ui st))) st) id action now)
          as (Hout & _).
        unfold outcome, exec in *.
        destruct (publish_log id action now
                    (set_ui (snd (widget show (ui st))) st)) as [r s'].
        cbn in *. by subst r. }
    pose proof (keeps_call_widget same_devices (CardUpdate id)) as Hd.
    destruct (publish_log_effect (set_ui (snd (widget show (ui st))) st)
                id action now) as (_ & Hdev & Hlogs & _ & Hbus).
    unfold exec at 1 3 5. unfold call_widget at 1 2 3.
    destruct (widget (CardUpdate id) _) as [r u]. cbn [snd].
    cbn [devices logs bus_trace set_ui]. rewrite Hdev, Hlogs, Hbus. done.
  - intros e He.
    assert (Hshow : call_widget show st
                    = (Raise e, set_ui (snd (widget show (ui st))) st)).
    { unfold call_widget. destruct (widget show (ui st)) as [r u].
      cbn in He. by subst r. }
    apply bind_raise. by apply bind_raise.
Qed.
End Publishing.

(** A log message with its four fields goes through the handler without
    a [KeyError]: the handler returns normally, or raises what the
    table's [update()] raised. *)
Lemma handle_message_log_outcome `{Platform} (st : State) (d : PyDict) :
  get_eq_str d "type" "log" = true → complete_log d →
  outcome (handle_message (ODict d)) st
  = match log_table st with
    | None => Ok tt
    | Some _ => fst (widget LogTableUpdate (ui st))
    end.
Proof.
  intros Hl ([dev Hdev] & [ts Hts] & [a Ha] & [us Hus]).
  assert (Hrow : log_cells d = Ok (ts, dev, a, us)).
  { unfold log_cells, getitem. by rewrite Hts, Hdev, Ha, Hus. }
  unfold handle_message. rewrite Hl. run_step.
  destruct (log_table st) as [rows|]; run_step; [|reflexivity].
  rewrite Hrow. run_step.
  destruct (widget LogTableUpdate (ui st)) as [r u]. reflexivity.
Qed.

(** X6.  [publish_log] hands to the bus a message the subscriber can
    always take.  The message given to [send_all] has the type "log",
    the device id, the action, the user "User" and the timestamp;
    publishing writes neither devices nor power history; and whenever
    and in whatever state the subscriber handles that message, it
    appends it to [logs], and it raises no [KeyError]: it returns
    normally, or raises what the table's [update()] raised.  A details
    page shows the entry as "<timestamp> - <action> (User)". *)
Theorem publish_log_records `{Platform} (st : State)
    (device_id action now : string) :
  bus_trace (exec (publish_log device_id action now) st)
  = bus_trace st ++ [log_message device_id action now] ∧
  devices (exec (publish_log device_id action now) st) = devices st ∧
  power_history (exec (publish_log device_id action now) st)
  = power_history st ∧
  log_cells (log_message device_id action now)
  = Ok (VStr now, VStr device_id, VStr action, VStr "User") ∧
  log_line (log_message device_id action now)
  = Ok (now ++ " - " ++ action ++ " (User)")%string ∧
  ∀ st' : State,
    logs (exec (handle_message (ODict (log_message device_id action now))) st')
    = logs st' ++ [log_message device_id action now] ∧
    outcome (handle_message (ODict (log_message device_id action now))) st'
    = match log_table st' with
      | None => Ok tt
      | Some _ => fst (widget LogTableUpdate (ui st'))
      end.
Proof.
  destruct (publish_log_effect st device_id action now)
    as (_ & Hd & _ & Hp & Hb).
  do 3 (split; [done|]). do 2 (split; [reflexivity|]).
  intros st'. split.
  - destruct (handle_message_effect
                (ODict (log_message device_id action now)) st')
      as (_ & -> & _).
    by rewrite log_entry_log_message.
  - apply handle_message_log_outcome; [reflexivity|].
    apply log_message_complete.
Qed.

Section CardLogs.
Context `{Platform}.

Lemma toggle_light_tail (st : State) (now : string) light v :
  devices st !! "light1" = Some light → light !! "is_on" = Some v →
  toggle_light now st
  = bind (bind (call_widget
                  (if negb (truthy v)
                   then CardShow "light1" "Status: ON" "Turn OFF"
                   else CardShow "light1" "Status: OFF" "Turn ON"))
               (λ _, publish_log "light1"
                       (if negb (truthy v) then "Turn ON" else "Turn OFF")
                       now))
         (λ _, call_widget (CardUpdate "light1"))
         (set_devices
            (<["light1" := <["is_on" := VBool (negb (truthy v))]> light]>
               (devices st)) st).
Proof.
  intros Hd Hk. unfold toggle_light.
  rewrite (bind_ok _ _ _ _ _
             (device_get_ok _ _ _ _ (read_field_intro _ _ _ _ _ Hd Hk))).
  rewrite (bind_ok _ _ _ _ _ (device_set_ok _ _ _ _ _ Hd)).
  erewrite (bind_ok _ _ _ _ (VBool (negb (truthy v)))).
  2:{ apply device_get_ok.
      by apply (read_field_written st _ "light1" "is_on" _ light Hd). }
  cbn [truthy]. destruct (negb (truthy v)); reflexivity.
Qed.

Lemma toggle_door_tail (st : State) (now : string) door v :
  devices st !! "door1" = Some door → door !! "locked" = Some v →
  toggle_door now st
  = bind (bind (call_widget
                  (if negb (truthy v)
                   then CardShow "door1" "Door: LOCKED" "Unlock"
                   else CardShow "door1" "Door: UNLOCKED" "Lock"))
               (λ _, publish_log "door1"
                       (if negb (truthy v) then "Lock" else "Unlock") now))
         (λ _, call_widget (CardUpdate "door1"))
         (set_devices
            (<["door1" := <["locked" := VBool (negb (truthy v))]> door]>
               (devices st)) st).
Proof.
  intros Hd Hk. unfold toggle_door.
  rewrite (bind_ok _ _ _ _ _
             (device_get_ok _ _ _ _ (read_field_intro _ _ _ _ _ Hd Hk))).
  rewrite (bind_ok _ _ _ _ _ (device_set_ok _ _ _ _ _ Hd)).
  erewrite (bind_ok _ _ _ _ (VBool (negb (truthy v)))).
  2:{ apply device_get_ok.
      by apply (read_field_written st _ "door1" "locked" _ door Hd). }
  cbn [truthy]. destruct (negb (truthy v)); reflexivity.
Qed.
End CardLogs.

(** X7.  The light button publishes the state it switched to, before
    it refreshes the card.  Once the two texts of the card are assigned,
    exactly one message is handed to the bus, for ["light1"], with the
    action "Turn ON" if the light is now on and "Turn OFF" if it is now
    off; it is published whether the calls to [update()] that follow
    return or raise, so a callback that ends with an exception of
    [update()] has switched the light and has published the entry. *)
Theorem toggle_light_logs_new_state `{Platform} (st : State) (now : string)
    (light : PyDict) (v : PyVal) :
  devices st !! "light1" = Some light → light !! "is_on" = Some v →
  let show := if negb (truthy v)
              then CardShow "light1" "Status: ON" "Turn OFF"
              else CardShow "light1" "Status: OFF" "Turn ON" in
  let action := if negb (truthy v) then "Turn ON" else "Turn OFF" in
  fst (widget show (ui st)) = Ok tt →
  bus_trace (exec (toggle_light now) st)
  = bus_trace st ++ [log_message "light1" action now] ∧
  read_field (exec (toggle_light now) st) "light1" "is_on"
  = Some (VBool (negb (truthy v))).
Proof.
  intros Hd Hk show action Hw.
  pose proof (toggle_light_tail st now light v Hd Hk) as Htail.
  fold show action in Htail.
  match type of Htail with _ = bind _ _ ?s =>
    destruct (card_tail s show "light1" action now) as [Hok _] end.
  cbv zeta in Hok. destruct (Hok Hw) as (Hdev & _ & Hbus).
  unfold exec in *. rewrite Htail. split; [exact Hbus|].
  eapply (read_field_written st _ "light1" "is_on" _ light Hd).
  exact Hdev.
Qed.

Lemma toggle_light_logs_new_state_witness :
  bus_trace (@exec update_fails _ (toggle_light "12:00:00")
               (@initial_state update_fails tt))
  = [log_message "light1" "Turn ON" "12:00:00"] ∧
  read_field (@exec update_fails _ (toggle_light "12:00:00")
                (@initial_state update_fails tt)) "light1" "is_on"
  = Some (VBool true) ∧
  @outcome update_fails _ (toggle_light "12:00:00")
     (@initial_state update_fails tt) = Raise WidgetError.
Proof.
  destruct (@toggle_light_logs_new_state update_fails
              (@initial_state update_fails tt) "12:00:00" light1_dict
              (VBool false) eq_refl eq_refl eq_refl) as [Hbus Hon].
  split; [exact Hbus|]. split; [exact Hon|]. vm_compute. reflexivity.
Defined.

(** X8.  The door button publishes the state it switched to, before it
    refreshes the card: once the two texts of the card are assigned, one
    message for ["door1"] is handed to the bus, with the action "Lock"
    if the door is now locked and "Unlock" if it is now unlocked,
    whether the calls to [update()] that follow return or raise. *)
Theorem toggle_door_logs_new_state `{Platform} (st : State) (now : string)
    (door : PyDict) (v : PyVal) :
  devices st !! "door1" = Some door → door !! "locked" = Some v →
  let show := if negb (truthy v)
              then CardShow "door1" "Door: LOCKED" "Unlock"
              else CardShow "door1" "Door: UNLOCKED" "Lock" in
  let action := if negb (truthy v) then "Lock" else "Unlock" in
  fst (widget show (ui st)) = Ok tt →
  bus_trace (exec (toggle_door now) st)
  = bus_trace st ++ [log_message "door1" action now] ∧
  read_field (exec (toggle_door now) st) "door1" "locked"
  = Some (VBool (negb (truthy v))).
Proof.
  intros Hd Hk show action Hw.
  pose proof (toggle_door_tail st now door v Hd Hk) as Htail.
  fold show action in Htail.
  match type of Htail with _ = bind _ _ ?s =>
    destruct (card_tail s show "door1" action now) as [Hok _] end.
  cbv zeta in Hok. destruct (Hok Hw) as (Hdev & _ & Hbus).
  unfold exec in *. rewrite Htail. split; [exact Hbus|].
  eapply (read_field_written st _ "door1" "locked" _ door Hd).
  exact Hdev.
Qed.

Lemma toggle_door_logs_new_state_witness :
  bus_trace (@exec update_fails _ (toggle_door "12:00:00")
               (@initial_state update_fails tt))
  = [log_message "door1" "Unlock" "12:00:00"] ∧
  read_field (@exec update_fails _ (toggle_door "12:00:00")
                (@initial_state update_fails tt)) "door1" "locked"
  = Some (VBool false) ∧
  @outcome update_fails _ (toggle_door "12:00:00")
     (@initial_state update_fails tt) = Raise WidgetError.
Proof.
  destruct (@toggle_door_logs_new_state update_fails
              (@initial_state update_fails tt) "12:00:00" door1_dict
              (VBool true) eq_refl eq_refl eq_refl) as [Hbus Hlocked].
  split; [exact Hbus|]. split; [exact Hlocked|]. vm_compute. reflexivity.
Defined.

(** ** Controls and the power reading *)

(** Rewrite the reads of the registry of [st'] into reads of [st] or into
    the value just written. *)
Ltac reads_after_write Hd Hst' :=
  unfold registry;
  repeat first
    [ rewrite (read_field_written _ _ _ _ _ _ Hd Hst')
    | rewrite (read_field_other _ _ _ _ _ _ _ _ Hd Hst')
        by (first [left; discriminate | right; discriminate]) ].

(** X9.  Each control moves the power reading by its own device's
    contribution and nothing else.  In a state with readings (light
    [is_on], fan [speed] in 0..3, thermostat [setpoint]) and a door that
    is locked or not: after the light button the reading is that of
    [not is_on]; after the fan slider at a value whose integer part [z]
    is in 0..3 it is that of speed [z]; after the thermostat slider at
    [value] it is that of setpoint [value]; after the door button it is
    what it was. *)
Theorem controls_drive_power `{Platform} (st : State) (now : string)
    (is_on : bool) (speed : Z) (setpoint : float) (locked : bool) :
  registry st is_on speed setpoint → (0 ≤ speed ≤ 3)%Z →
  read_field st "door1" "locked" = Some (VBool locked) →
  outcome compute_total_power (exec (toggle_light now) st)
  = Ok (totalPower (negb is_on) speed setpoint) ∧
  (∀ (value : float) (z : Z),
     py_int_of_float value = Ok z → (0 ≤ z ≤ 3)%Z →
     outcome compute_total_power (exec (on_change_fan value now) st)
     = Ok (totalPower is_on z setpoint)) ∧
  (∀ value : float,
     outcome compute_total_power (exec (on_change_thermostat value now) st)
     = Ok (totalPower is_on speed value)) ∧
  outcome compute_total_power (exec (toggle_door now) st)
  = Ok (totalPower is_on speed setpoint).
Proof.
  intros Hreg Hs Hdoor. pose proof Hreg as (Hl & Hf & Ht).
  destruct (read_field_Some _ _ _ _ Hl) as (light & Hdl & Hkl).
  destruct (read_field_Some _ _ _ _ Hf) as (fan & Hdf & _).
  destruct (read_field_Some _ _ _ _ Ht) as (thermo & Hdt & _).
  destruct (read_field_Some _ _ _ _ Hdoor) as (door & Hdd & Hkd).
  split; [|split; [|split]].
  - pose proof (toggle_light_devices st now light _ Hdl Hkl) as Hst'.
    unfold outcome. erewrite compute_total_power_domain; [reflexivity | | exact Hs].
    cbn [truthy]. reads_after_write Hdl Hst'. done.
  - intros value z Hz Hrange.
    pose proof (on_change_fan_devices st value now fan z Hz Hdf) as Hst'.
    unfold outcome.
    erewrite compute_total_power_domain; [reflexivity | | exact Hrange].
    reads_after_write Hdf Hst'. done.
  - intros value.
    pose proof (on_change_thermostat_devices st value now thermo Hdt) as Hst'.
    unfold outcome. erewrite compute_total_power_domain; [reflexivity | | exact Hs].
    reads_after_write Hdt Hst'. done.
  - pose proof (toggle_door_devices st now door _ Hdd Hkd) as Hst'.
    unfold outcome. erewrite compute_total_power_domain; [reflexivity | | exact Hs].
    reads_after_write Hdd Hst'. done.
Qed.

Lemma controls_drive_power_witness :
  @outcome headless _ compute_total_power
     (@exec headless _ (on_change_thermostat 20 "12:00:00")
        (registry_with true 2 22))
  = Ok (totalPower true 2 20).
Proof.
  destruct (@controls_drive_power headless (registry_with true 2 22)
              "12:00:00" true 2%Z 22%float true) as (_ & _ & Hthermo & _).
  - repeat split; reflexivity.
  - lia.
  - reflexivity.
  - apply Hthermo.
Defined.

(** X10.  One turn of the sampler either publishes or does nothing.  If
    the power reading succeeds with [w], the sample [{time: t,
    total_power: w}] is handed to the bus, devices stay, and the next
    index is [t + 1]; and whenever and in whatever state the subscriber
    handles that sample, it pushes the pair [(t, w)] on the power
    history under the cap of 50.  If the reading raises, the turn raises
    the same exception with the state untouched: nothing is published. *)
Theorem sampler_turn `{Platform} (st : State) (t : Z) :
  (∀ w : float,
     outcome compute_total_power st = Ok w →
     outcome (simulator_step t) st = Ok (t + 1)%Z ∧
     bus_trace (exec (simulator_step t) st)
     = bus_trace st ++ [power_sample_msg t w] ∧
     devices (exec (simulator_step t) st) = devices st ∧
     ∀ st' : State,
       power_history
         (exec (handle_message (ODict (power_sample_msg t w))) st')
       = push_sample (power_history st') (VInt t, VFloat w)) ∧
  (∀ e : PyExc,
     outcome compute_total_power st = Raise e →
     simulator_step t st = (Raise e, st)).
Proof.
  pose proof (compute_total_power_pair st) as Hpair. split.
  - intros w Hw. rewrite Hw in Hpair. unfold outcome, exec.
    rewrite (simulator_step_ok st t w Hpair). cbn [fst snd].
    do 3 (split; [reflexivity|]). intros st'.
    destruct (handle_message_effect (ODict (power_sample_msg t w)) st')
      as (_ & _ & Hp & _).
    unfold exec in Hp. by rewrite Hp.
  - intros e He. rewrite He in Hpair. by apply simulator_step_raise.
Qed.

Lemma sampler_turn_witness :
  @outcome headless _ (simulator_step 7) (registry_with true 2 22)
  = Ok 8%Z.
Proof.
  destruct (@sampler_turn headless (registry_with true 2 22) 7%Z)
    as [Hok _].
  apply (Hok 580%float). vm_compute. reflexivity.
Defined.

(** X11.  A card callback whose device is not in [devices] raises the
    [KeyError] of the device id before it writes anything: the state is
    untouched, no text is updated and nothing is logged. *)
Theorem callbacks_need_their_device `{Platform} (st : State)
    (value : float) (now : string) :
  (devices st !! "light1" = None →
   toggle_light now st = (Raise (KeyError "light1"), st)) ∧
  (devices st !! "door1" = None →
   toggle_door now st = (Raise (KeyError "door1"), st)) ∧
  (devices st !! "thermo1" = None →
   on_change_thermostat value now st = (Raise (KeyError "thermo1"), st)) ∧
  (devices st !! "fan1" = None →
   ∀ z : Z, py_int_of_float value = Ok z →
            on_change_fan value now st = (Raise (KeyError "fan1"), st)).
Proof.
  assert (Hmiss : ∀ id, devices st !! id = None →
                        device id st = (Raise (KeyError id), st)).
  { intros id Hid. unfold device. by rewrite Hid. }
  split; [|split; [|split]].
  - intros Hd. unfold toggle_light, device_get.
    apply bind_raise, bind_raise, Hmiss, Hd.
  - intros Hd. unfold toggle_door, device_get.
    apply bind_raise, bind_raise, Hmiss, Hd.
  - intros Hd. unfold on_change_thermostat, device_set.
    apply bind_raise, bind_raise, Hmiss, Hd.
  - intros Hd z Hz. unfold on_change_fan.
    rewrite (bind_ok _ _ st st z) by (unfold lift; by rewrite Hz).
    unfold device_set. apply bind_raise, bind_raise, Hmiss, Hd.
Qed.

Lemma callbacks_need_their_device_witness :
  @toggle_light headless "12:00:00"
     (@set_devices headless ∅ (@initial_state headless tt))
  = (Raise (KeyError "light1"),
     @set_devices headless ∅ (@initial_state headless tt)).
Proof.
  apply (@callbacks_need_their_device headless
           (@set_devices headless ∅ (@initial_state headless tt)) 0%float
           "12:00:00").
  reflexivity.
Defined.

(** ** Navigation *)

Section Navigation.
Context `{Platform}.

Lemma route_change_statistics_ok (st : State) (rows : list LogRow) :
  mapM log_cells (logs st) = Ok rows →
  log_table (exec (route_change RouteStatistics) st) = Some rows ∧
  power_chart (exec (route_change RouteStatistics) st)
  = Some LineChartWidget ∧
  views (exec (route_change RouteStatistics) st) = [StatisticsView].
Proof.
  intros Hrows. unfold route_change. run_step. rewrite Hrows. run_step.
  destruct (widget PageUpdate (ui st)) as [[[]|e] u]; run_step; [|done].
  match goal with |- context [update_power_chart ?s] =>
    destruct (update_power_chart_frame s) as (r & u' & ->) end.
  destruct r as [[]|e]; run_step; [|done].
  destruct (widget PageUpdate u') as [r u'']. done.
Qed.

Lemma route_change_statistics_raise (st : State) (e : PyExc) :
  mapM log_cells (logs st) = Raise e →
  route_change RouteStatistics st = (Raise e, set_views [] st).
Proof.
  intros Hrows. unfold route_change. run_step. rewrite Hrows. reflexivity.
Qed.
End Navigation.

(** X12.  Navigation writes no data.  Whatever the route, and whether
    the route change returns or raises, devices, logs, power history and
    bus trace are exactly what they were, and [page.views] ends with at
    most one view: the old views never survive a route change. *)
Theorem navigation_writes_no_data `{Platform} (route : Route) (st : State) :
  devices (exec (route_change route) st) = devices st ∧
  logs (exec (route_change route) st) = logs st ∧
  power_history (exec (route_change route) st) = power_history st ∧
  bus_trace (exec (route_change route) st) = bus_trace st ∧
  (length (views (exec (route_change route) st)) ≤ 1)%nat.
Proof.
  unfold route_change. destruct route as [|id| |]; run_step.
  - destruct (widget PageUpdate (ui st)) as [r u]. cbn. repeat split; lia.
  - destruct (device_info (devices st !! id)) as [info|e]; run_step;
      [|cbn; repeat split; lia].
    destruct (filterM (log_is_for id) (logs st)) as [dl|e]; run_step;
      [|cbn; repeat split; lia].
    destruct (mapM log_line dl) as [lines|e]; run_step;
      [|cbn; repeat split; lia].
    destruct (widget PageUpdate (ui st)) as [r u]. cbn. repeat split; lia.
  - destruct (mapM log_cells (logs st)) as [rows|e]; run_step;
      [|cbn; repeat split; lia].
    destruct (widget PageUpdate (ui st)) as [[[]|e] u]; run_step;
      [|cbn; repeat split; lia].
    match goal with |- context [update_power_chart ?s] =>
      destruct (update_power_chart_frame s) as (r & u' & ->) end.
    destruct r as [[]|e]; run_step; [|cbn; repeat split; lia].
    destruct (widget PageUpdate u') as [r u'']. cbn. repeat split; lia.
  - destruct (widget PageUpdate (ui st)) as [r u]. cbn. repeat split; lia.
Qed.

(** X13.  The statistics route builds the log table from [logs] or fails
    cleanly.  If every log entry has the four fields of a row, then after
    the route change, whether the widget layer raised or not, the table
    holds one row per entry, in order, the chart variable is set and the
    statistics view is the only view.  If some entry lacks a field, the
    route change raises that [KeyError] right after clearing the views:
    the page is left with no view, and table and chart variables keep
    their old values. *)
Theorem statistics_route `{Platform} (st : State) :
  (∀ rows : list LogRow,
     mapM log_cells (logs st) = Ok rows →
     log_table (exec (route_change RouteStatistics) st) = Some rows ∧
     length rows = length (logs st) ∧
     power_chart (exec (route_change RouteStatistics) st)
     = Some LineChartWidget ∧
     views (exec (route_change RouteStatistics) st) = [StatisticsView]) ∧
  (∀ e : PyExc,
     mapM log_cells (logs st) = Raise e →
     route_change RouteStatistics st = (Raise e, set_views [] st)).
Proof.
  split.
  - intros rows Hrows.
    destruct (route_change_statistics_ok st rows Hrows) as (Ht & Hc & Hv).
    split; [exact Ht|]. split; [|done].
    clear Ht Hc Hv. revert rows Hrows.
    induction (logs st) as [|d l IH]; intros rows Hrows.
    + by injection Hrows as <-.
    + cbn [mapM] in Hrows. destruct (log_cells d) as [row|e]; [|done].
      destruct (mapM log_cells l) as [rows'|e]; [|done].
      injection Hrows as <-. cbn [length]. f_equal. by apply IH.
  - intros e He. by apply route_change_statistics_raise.
Qed.

Lemma statistics_route_witness :
  @route_change headless RouteStatistics
     (@set_logs headless [<["type" := VStr "log"]> ∅]
        (registry_with true 0 19))
  = (Raise (KeyError "timestamp"),
     @set_views headless []
       (@set_logs headless [<["type" := VStr "log"]> ∅]
          (registry_with true 0 19))).
Proof.
  destruct (@statistics_route headless
              (@set_logs headless [<["type" := VStr "log"]> ∅]
                 (registry_with true 0 19))) as [_ Hraise].
  apply Hraise. vm_compute. reflexivity.
Defined.

(** ** Invariants of the running program *)

Section Preservation.
Context `{Platform} (P : State → Prop) (HP : Invariant P).

Lemma preserves_ret {A} (a : A) : preserves P (ret a).
Proof. intros st Hst. exact Hst. Qed.

Lemma preserves_lift {A} (r : result A) : preserves P (lift r).
Proof. intros st Hst. exact Hst. Qed.

Lemma preserves_gets {A} (proj : State → A) : preserves P (gets proj).
Proof. intros st Hst. exact Hst. Qed.

Lemma preserves_modify (f : State → State) :
  (∀ st, P st → P (f st)) → preserves P (modify f).
Proof. intros Hf st Hst. by apply Hf. Qed.

Lemma preserves_bind {A B} (m : M A) (k : A → M B) :
  preserves P m → (∀ a, preserves P (k a)) → preserves P (bind m k).
Proof.
  intros Hm Hk st Hst. specialize (Hm st Hst). unfold exec, bind in *.
  destruct (m st) as [[a|e] st1]; cbn [snd] in *; [|exact Hm].
  by apply Hk.
Qed.

Lemma preserves_call_widget (op : WidgetOp) : preserves P (call_widget op).
Proof.
  intros st Hst. unfold exec, call_widget.
  destruct (widget op (ui st)) as [r u]. by apply inv_ui.
Qed.

Lemma preserves_device (id : string) : preserves P (device id).
Proof.
  intros st Hst. unfold exec, device. by destruct (devices st !! id).
Qed.

Lemma preserves_device_get (id k : string) : preserves P (device_get id k).
Proof.
  unfold device_get. apply preserves_bind; [apply preserves_device|].
  intros d. apply preserves_lift.
Qed.

Lemma preserves_device_set (id k : string) (v : PyVal) :
  preserves P (device_set id k v).
Proof.
  unfold device_set. apply preserves_bind; [apply preserves_device|].
  intros d. apply preserves_modify. intros st. apply inv_devices.
Qed.

Lemma preserves_update_power_chart : preserves P update_power_chart.
Proof.
  intros st Hst.
  destruct (update_power_chart_frame st) as (r & u & Hu).
  unfold exec. rewrite Hu. by apply inv_ui.
Qed.

Lemma preserves_compute_total_power : preserves P compute_total_power.
Proof.
  intros st Hst. destruct (reads_compute_total_power st) as [-> _]. done.
Qed.

Lemma preserves_publish_log (device_id action now : string) :
  preserves P (publish_log device_id action now).
Proof.
  intros st Hst.
  change (exec (publish_log device_id action now) st)
    with (set_bus_trace
            (bus_trace st ++ [log_message device_id action now]) st).
  by apply inv_bus_trace.
Qed.

Lemma preserves_simulator_step (t : Z) : preserves P (simulator_step t).
Proof.
  intros st Hst. pose proof (compute_total_power_pair st) as Hpair.
  destruct (outcome compute_total_power st) as [w|e].
  - unfold exec. rewrite (simulator_step_ok st t w Hpair). cbn [snd].
    by apply inv_bus_trace.
  - unfold exec. by rewrite (simulator_step_raise st t e Hpair).
Qed.

Ltac preserves_step :=
  first
    [ apply preserves_ret | apply preserves_lift | apply preserves_gets
    | apply preserves_call_widget | apply preserves_device_get
    | apply preserves_device_set | apply preserves_publish_log
    | apply preserves_update_power_chart
    | apply preserves_modify; intros ?;
      first [ apply inv_views | apply inv_power_chart ]
    | apply preserves_bind; [|intros ?]
    | match goal with
      | |- preserves _ (match ?x with _ => _ end) => destruct x
      end ].

Lemma preserves_toggle_light (now : string) :
  preserves P (toggle_light now).
Proof. unfold toggle_light. repeat preserves_step. Qed.

Lemma preserves_toggle_door (now : string) : preserves P (toggle_door now).
Proof. unfold toggle_door. repeat preserves_step. Qed.

Lemma preserves_on_change_fan (value : float) (now : string) :
  preserves P (on_change_fan value now).
Proof. unfold on_change_fan. repeat preserves_step. Qed.

Lemma preserves_on_change_thermostat (value : float) (now : string) :
  preserves P (on_change_thermostat value now).
Proof. unfold on_change_thermostat. repeat preserves_step. Qed.

Lemma preserves_route_change (route : Route) :
  preserves P (route_change route).
Proof.
  destruct route as [|id| |];
    try solve [unfold route_change; repeat preserves_step].
  intros st Hst.
  destruct (mapM log_cells (logs st)) as [rows|e] eqn:Hrows.
  - unfold route_change, exec. run_step. rewrite Hrows. run_step.
    assert (P (set_views [StatisticsView]
                 (set_power_chart (Some LineChartWidget)
                    (set_log_table (Some rows) (set_views [] st))))) as Hst1.
    { apply inv_views, inv_power_chart, inv_table; [exact Hrows|].
      by apply inv_views. }
    destruct (widget PageUpdate (ui st)) as [[[]|e] u]; run_step;
      [|by apply inv_ui].
    match goal with |- context [update_power_chart ?s] =>
      pose proof (preserves_update_power_chart s) as Hupd;
      destruct (update_power_chart_frame s) as (r & u' & Hu) end.
    unfold exec in Hupd. rewrite Hu in *. cbn [snd] in Hupd.
    specialize (Hupd ltac:(by apply inv_ui)).
    destruct r as [[]|e]; run_step; [|exact Hupd].
    destruct (widget PageUpdate u') as [r u'']. cbn [snd].
    change (P (set_ui u'' (set_ui u'
                 (set_ui u (set_views [StatisticsView]
                    (set_power_chart (Some LineChartWidget)
                       (set_log_table (Some rows) (set_views [] st)))))))).
    by apply inv_ui.
  - unfold exec. rewrite (route_change_statistics_raise st e Hrows).
    by apply inv_views.
Qed.

(** One step of the program, when the message it may deliver respects
    the invariant. *)
Lemma step_preserves (sys : System) (ev : Event) :
  (∀ msg, ev = Deliver msg → preserves P (handle_message msg)) →
  P (program sys) → P (program (step sys ev)).
Proof.
  intros Hmsg Hst. destruct ev as [now|v now|v now|now|r| |msg];
    cbn [step program].
  - by apply preserves_toggle_light.
  - by apply preserves_on_change_fan.
  - by apply preserves_on_change_thermostat.
  - by apply preserves_toggle_door.
  - by apply preserves_route_change.
  - destruct (sampler sys) as [t|]; [|exact Hst].
    pose proof (preserves_simulator_step t (program sys) Hst) as Hk.
    unfold exec in Hk.
    destruct (simulator_step t (program sys)) as [[t'|e] st']; exact Hk.
  - by apply (Hmsg msg).
Qed.

Lemma run_preserves (sys : System) (evs : list Event) :
  Forall (λ ev, ∀ msg, ev = Deliver msg → preserves P (handle_message msg))
    evs →
  P (program sys) → P (program (run sys evs)).
Proof.
  revert sys. induction evs as [|ev evs IH]; intros sys Hevs Hst; [exact Hst|].
  apply Forall_cons in Hevs as [Hev Hevs].
  rewrite run_cons. apply IH; [exact Hevs|]. by apply step_preserves.
Qed.
End Preservation.

Section ProgramInvariants.
Context `{Platform}.

Lemma mapM_snoc {A B} (f : A → result B) (l : list A) (x : A)
    (ys : list B) (y : B) :
  mapM f l = Ok ys → f x = Ok y → mapM f (l ++ [x]) = Ok (ys ++ [y]).
Proof.
  revert ys. induction l as [|a l IH]; intros ys Hl Hx.
  - injection Hl as <-. cbn. by rewrite Hx.
  - cbn [mapM app] in *. destruct (f a) as [b|e]; [|done].
    destruct (mapM f l) as [bs|e]; [|done]. injection Hl as <-.
    by rewrite (IH bs eq_refl Hx).
Qed.

Lemma mapM_length {A B} (f : A → result B) (l : list A) (ys : list B) :
  mapM f l = Ok ys → length ys = length l.
Proof.
  revert ys. induction l as [|a l IH]; intros ys Hl.
  - by injection Hl as <-.
  - cbn [mapM] in Hl. destruct (f a) as [b|e]; [|done].
    destruct (mapM f l) as [bs|e]; [|done]. injection Hl as <-.
    cbn [length]. f_equal. by apply IH.
Qed.

Lemma complete_log_cells (d : PyDict) :
  complete_log d → ∃ row, log_cells d = Ok row.
Proof.
  intros ([dev Hdev] & [ts Hts] & [a Ha] & [us Hus]).
  unfold log_cells, getitem. rewrite Hts, Hdev, Ha, Hus. eauto.
Qed.

Lemma log_entry_is_log (msg : PyObj) (d : PyDict) :
  log_entry msg = Some d →
  msg = ODict d ∧ get_eq_str d "type" "log" = true.
Proof.
  destruct msg as [v|d']; [done|]. cbn [log_entry].
  destruct (get_eq_str d' "type" "log") eqn:Hl; [|done].
  by intros [= ->].
Qed.

Global Instance history_bounded_invariant : Invariant history_bounded.
Proof.
  split; unfold history_bounded; intros; cbn; done.
Qed.

Lemma history_bounded_receive (msg : PyObj) :
  preserves history_bounded (handle_message msg).
Proof.
  intros st Hst. unfold history_bounded in *.
  destruct (handle_message_effect msg st) as (_ & _ & -> & _).
  destruct (sample_entry msg); [by apply push_sample_length | exact Hst].
Qed.

(** Receiving a complete log entry keeps table and logs in step. *)
Lemma table_in_sync_log (st : State) (d : PyDict) :
  get_eq_str d "type" "log" = true → complete_log d →
  table_in_sync st → table_in_sync (exec (handle_message (ODict d)) st).
Proof.
  intros Hl Hd Hst rows.
  destruct (handle_message_log_table st d Hl) as [-> ->].
  destruct (complete_log_cells d Hd) as [row Hrow]. rewrite Hrow.
  destruct (log_table st) as [rows0|] eqn:Ht; [|done].
  intros [= <-]. apply mapM_snoc; [by apply Hst | exact Hrow].
Qed.

Lemma table_in_sync_other (st : State) (msg : PyObj) :
  log_entry msg = None →
  table_in_sync st → table_in_sync (exec (handle_message msg) st).
Proof.
  intros Hmsg Hst rows.
  rewrite (handle_message_other_table st msg Hmsg).
  destruct (handle_message_effect msg st) as (_ & -> & _).
  rewrite Hmsg. cbn [option_list]. rewrite app_nil_r. apply Hst.
Qed.

Global Instance table_in_sync_invariant : Invariant table_in_sync.
Proof.
  split; try (unfold table_in_sync; intros; cbn in *; auto; done).
  intros st rows Hrows Hst rows' [= <-]. exact Hrows.
Qed.

Lemma table_in_sync_receive (msg : PyObj) :
  well_formed msg → preserves table_in_sync (handle_message msg).
Proof.
  intros Hmsg st Hst. destruct (log_entry msg) as [d|] eqn:Hd.
  - destruct (log_entry_is_log msg d Hd) as [-> Hl].
    apply table_in_sync_log; [exact Hl | by apply Hmsg | exact Hst].
  - by apply table_in_sync_other.
Qed.
End ProgramInvariants.

(** X14.  The cap of 50 holds for the running program.  In every run
    from the start, whatever the events (clicks, slider moves, route
    changes, sampler turns, deliveries of messages of any shape,
    published by this session or by another) and whatever the widget
    layer does, the power history never holds more than 50 entries. *)
Theorem history_never_exceeds_cap `{Platform} (u : UI) (evs : list Event) :
  (length (power_history (program (run (boot u) evs))) ≤ 50)%nat.
Proof.
  apply (run_preserves history_bounded history_bounded_invariant).
  - apply Forall_forall. intros ev _ msg _. apply history_bounded_receive.
  - unfold history_bounded. cbn. lia.
Qed.

(** X15.  The log table mirrors the log buffer.  In every run from the
    start in which the log messages delivered to the subscriber have the
    four fields of a log entry (those this program publishes do),
    whenever the log table exists its rows are exactly the cells
    (timestamp, device, action, user) of the entries of [logs], one row
    per entry and in the same order. *)
Theorem log_table_mirrors_logs `{Platform} (u : UI) (evs : list Event)
    (rows : list LogRow) :
  Forall foreign_well_formed evs →
  log_table (program (run (boot u) evs)) = Some rows →
  mapM log_cells (logs (program (run (boot u) evs))) = Ok rows ∧
  length rows = length (logs (program (run (boot u) evs))).
Proof.
  intros Hevs Ht.
  assert (Hsync : table_in_sync (program (run (boot u) evs))).
  { apply (run_preserves table_in_sync table_in_sync_invariant).
    - eapply Forall_impl; [exact Hevs|]. intros ev Hev msg ->.
      by apply table_in_sync_receive.
    - intros rows0 Hrows0. discriminate. }
  split; [by apply Hsync|]. eapply mapM_length. by apply Hsync.
Qed.

Lemma log_table_mirrors_logs_witness :
  mapM (@log_cells)
    (logs (program (@run headless (@boot headless tt)
                      [Navigate RouteStatistics; ClickLight "12:00:00";
                       Deliver (ODict (log_message "light1" "Turn ON"
                                         "12:00:00"))])))
  = Ok [(VStr "12:00:00", VStr "light1", VStr "Turn ON", VStr "User")] ∧
  length [(VStr "12:00:00", VStr "light1", VStr "Turn ON", VStr "User")]
  = length (logs (program (@run headless (@boot headless tt)
                             [Navigate RouteStatistics;
                              ClickLight "12:00:00";
                              Deliver (ODict (log_message "light1" "Turn ON"
                                                "12:00:00"))]))).
Proof.
  apply (@log_table_mirrors_logs headless tt
           [Navigate RouteStatistics; ClickLight "12:00:00";
            Deliver (ODict (log_message "light1" "Turn ON" "12:00:00"))]).
  - repeat (constructor; [exact I|]). constructor; [|constructor].
    intros d Hd. rewrite log_entry_log_message in Hd.
    injection Hd as <-. apply log_message_complete.
  - vm_compute. reflexivity.
Defined.

(** ** The details page *)

Section DetailsPage.
Context `{Platform}.

Lemma labels_intact_same (st st' : State) :
  devices st' = devices st → labels_intact st → labels_intact st'.
Proof.
  intros Hd. unfold labels_intact, labelled.
  by rewrite !(read_field_same st st' _ _ Hd).
Qed.

(** No callback writes to a label. *)
Lemma labels_intact_write (st st' : State) (id k : string) (v : PyVal)
    (d : PyDict) :
  k = "is_on" ∨ k = "speed" ∨ k = "setpoint" ∨ k = "locked" →
  devices st !! id = Some d →
  devices st' = <[id := <[k := v]> d]> (devices st) →
  labels_intact st → labels_intact st'.
Proof.
  intros Hk Hd Hst'. unfold labels_intact, labelled.
  assert (Hread : ∀ id' k', k' = "id" ∨ k' = "name" ∨ k' = "type" →
                            read_field st' id' k' = read_field st id' k').
  { intros id' k' Hk'. apply (read_field_other st st' id k v d id' k' Hd Hst').
    right. destruct Hk as [-> | [-> | [-> | ->]]];
      destruct Hk' as [-> | [-> | ->]]; discriminate. }
  rewrite !Hread by tauto. done.
Qed.

Lemma step_labels_intact (sys : System) (ev : Event) :
  well_typed (program sys) → labels_intact (program sys) →
  labels_intact (program (step sys ev)).
Proof.
  intros Hwt Hlab. destruct ev as [now|v now|v now|now|r| |msg];
    try (apply (labels_intact_same (program sys)); [|exact Hlab];
         by apply same_devices_of).
  - destruct (well_typed_light _ Hwt) as (light & b & Hd & Hk).
    apply (labels_intact_write (program sys) _ "light1" "is_on"
             (VBool (negb (truthy (VBool b)))) light); [tauto | done | | done].
    apply (toggle_light_devices _ now _ _ Hd Hk).
  - destruct (well_typed_fan _ Hwt) as (fan & Hd).
    cbn [step program].
    destruct (py_int_of_float v) as [z|e] eqn:Hz.
    + apply (labels_intact_write (program sys) _ "fan1" "speed" (VInt z) fan);
        [tauto | done | | done].
      by apply on_change_fan_devices.
    + unfold exec. by rewrite (on_change_fan_raise _ _ _ _ Hz).
  - destruct (well_typed_thermo _ Hwt) as (thermo & Hd).
    apply (labels_intact_write (program sys) _ "thermo1" "setpoint"
             (VFloat v) thermo); [tauto | done | | done].
    by apply on_change_thermostat_devices.
  - destruct (well_typed_door _ Hwt) as (door & b & Hd & Hk).
    apply (labels_intact_write (program sys) _ "door1" "locked"
             (VBool (negb (truthy (VBool b)))) door); [tauto | done | | done].
    apply (toggle_door_devices _ now _ _ Hd Hk).
Qed.

Lemma run_labels_intact (sys : System) (evs : list Event) :
  well_typed (program sys) → labels_intact (program sys) →
  labels_intact (program (run sys evs)).
Proof.
  revert sys. induction evs as [|ev evs IH]; intros sys Hwt Hlab; [done|].
  rewrite run_cons. apply IH; [by apply step_well_typed|].
  by apply step_labels_intact.
Qed.

Lemma boot_labels_intact (u : UI) : labels_intact (program (boot u)).
Proof. repeat split; reflexivity. Qed.

(** The page of a device whose info rows can be built, when the log
    entries have their fields. *)
Lemma route_change_device (st : State) (id : string)
    (info : string * list string) :
  device_info (devices st !! id) = Ok info →
  Forall complete_log (logs st) →
  outcome (route_change (RouteDevice id)) st
  = fst (widget PageUpdate (ui st)) ∧
  ∃ controls : list string,
    views (exec (route_change (RouteDevice id)) st)
    = [DeviceView ("/device/" ++ id)%string (fst info) (snd info) controls].
Proof.
  intros Hinfo Hlogs.
  destruct (filterM_log_is_for id (logs st) Hlogs) as (dl & Hdl & Hdl').
  destruct (mapM_log_line dl Hdl') as (lines & Hlines).
  unfold route_change. run_step. rewrite Hinfo. run_step.
  rewrite Hdl. run_step. rewrite Hlines. run_step.
  destruct (widget PageUpdate (ui st)) as [r u]. run_step.
  split; [reflexivity|]. eexists. reflexivity.
Qed.

Lemma logs_complete_receive (st : State) (msg : PyObj) :
  well_formed msg →
  Forall complete_log (logs st) →
  Forall complete_log (logs (exec (handle_message msg) st)).
Proof.
  intros Hmsg Hst.
  destruct (handle_message_effect msg st) as (_ & -> & _).
  apply Forall_app. split; [exact Hst|].
  destruct (log_entry msg) as [d|] eqn:Hd; cbn [option_list]; [|constructor].
  constructor; [by apply Hmsg | constructor].
Qed.

Global Instance logs_complete_invariant :
  Invariant (λ st, Forall complete_log (logs st)).
Proof.
  split; intros; cbn; done.
Qed.

(** The info rows of the four devices in a state that is well typed and
    has its labels. *)
Lemma device_info_rows (st : State) is_on speed setpoint locked :
  labels_intact st →
  registry st is_on speed setpoint →
  read_field st "door1" "locked" = Some (VBool locked) →
  device_info (devices st !! "light1")
  = Ok ("Living Room Light details",
        ["ID: light1"; "Type: light";
         "State: " ++ (if is_on then "ON" else "OFF")])%string ∧
  device_info (devices st !! "fan1")
  = Ok ("Ceiling Fan details",
        ["ID: fan1"; "Type: fan"; "Speed: " ++ pretty speed])%string ∧
  device_info (devices st !! "thermo1")
  = Ok ("Thermostat details",
        ["ID: thermo1"; "Type: thermostat";
         "Setpoint: " ++ format_1f setpoint ++ " °C"])%string ∧
  device_info (devices st !! "door1")
  = Ok ("Front Door details",
        ["ID: door1"; "Type: door";
         "Locked: " ++ (if locked then "YES" else "NO")])%string.
Proof.
  intros ((Hl1 & Hl2 & Hl3) & (Hf1 & Hf2 & Hf3) & (Ht1 & Ht2 & Ht3)
          & (Hd1 & Hd2 & Hd3)) (Hon & Hsp & Hset) Hlock.
  destruct (read_field_Some _ _ _ _ Hon) as (light & Hlight & _).
  destruct (read_field_Some _ _ _ _ Hsp) as (fan & Hfan & _).
  destruct (read_field_Some _ _ _ _ Hset) as (thermo & Hthermo & _).
  destruct (read_field_Some _ _ _ _ Hlock) as (door & Hdoor & _).
  unfold read_field in *.
  rewrite Hlight in Hl1, Hl2, Hl3, Hon.
  rewrite Hfan in Hf1, Hf2, Hf3, Hsp.
  rewrite Hthermo in Ht1, Ht2, Ht3, Hset.
  rewrite Hdoor in Hd1, Hd2, Hd3, Hlock.
  cbn [mbind option_bind] in *.
  rewrite Hlight, Hfan, Hthermo, Hdoor. unfold device_info, getitem.
  rewrite Hl1, Hl2, Hl3, Hon, Hf1, Hf2, Hf3, Hsp, Ht1, Ht2, Ht3, Hset,
    Hd1, Hd2, Hd3, Hlock.
  repeat split; reflexivity.
Qed.
End DetailsPage.

(** X16.  The details page shows the current state of the device.  In
    every run from the start in which the log messages delivered to the
    subscriber have their four fields, the registry has some readings
    (light [is_on], fan [speed], thermostat [setpoint], door [locked]) and the
    details route of each of the four devices raises only if the page
    update of the widget layer does, and leaves as the only view the page
    with the device's name in the title and the rows ID, Type and the
    current reading: State ON/OFF, Speed, Setpoint, Locked YES/NO. *)
Theorem details_page_shows_state `{Platform} (u : UI) (evs : list Event) :
  Forall foreign_well_formed evs →
  ∃ (is_on : bool) (speed : Z) (setpoint : float) (locked : bool),
    registry (program (run (boot u) evs)) is_on speed setpoint ∧
    read_field (program (run (boot u) evs)) "door1" "locked"
    = Some (VBool locked) ∧
    ∀ (id title : string) (rows : list string),
      In (id, title, rows)
        [("light1", "Living Room Light details",
          ["ID: light1"; "Type: light";
           "State: " ++ (if is_on then "ON" else "OFF")]);
         ("fan1", "Ceiling Fan details",
          ["ID: fan1"; "Type: fan"; "Speed: " ++ pretty speed]);
         ("thermo1", "Thermostat details",
          ["ID: thermo1"; "Type: thermostat";
           "Setpoint: " ++ format_1f setpoint ++ " °C"]);
         ("door1", "Front Door details",
          ["ID: door1"; "Type: door";
           "Locked: " ++ (if locked then "YES" else "NO")])]%string →
      outcome (route_change (RouteDevice id)) (program (run (boot u) evs))
      = fst (widget PageUpdate (ui (program (run (boot u) evs)))) ∧
      ∃ controls : list string,
        views (exec (route_change (RouteDevice id))
                 (program (run (boot u) evs)))
        = [DeviceView ("/device/" ++ id)%string title rows controls].
Proof.
  intros Hevs.
  destruct (run_well_typed (boot u) evs (boot_well_typed u))
    as (is_on & speed & setpoint & locked & Hreg & Hlock).
  pose proof (run_labels_intact (boot u) evs (boot_well_typed u)
                (boot_labels_intact u)) as Hlab.
  assert (Hlogs : Forall complete_log (logs (program (run (boot u) evs)))).
  { apply (run_preserves _ logs_complete_invariant).
    - eapply Forall_impl; [exact Hevs|]. intros ev Hev msg -> st.
      by apply logs_complete_receive.
    - constructor. }
  exists is_on, speed, setpoint, locked. do 2 (split; [done|]).
  destruct (device_info_rows _ _ _ _ _ Hlab Hreg Hlock)
    as (Hlight & Hfan & Hthermo & Hdoor).
  intros id title rows [[= <- <- <-]|[[= <- <- <-]|[[= <- <- <-]|
                        [[= <- <- <-]|[]]]]].
  - apply (route_change_device _ _ _ Hlight Hlogs).
  - apply (route_change_device _ _ _ Hfan Hlogs).
  - apply (route_change_device _ _ _ Hthermo Hlogs).
  - apply (route_change_device _ _ _ Hdoor Hlogs).
Qed.

Lemma details_page_shows_state_witness :
  ∃ (is_on : bool) (speed : Z) (setpoint : float) (locked : bool),
    registry (program (@run headless (@boot headless tt)
                         [ClickLight "12:00:00"; SlideFan 2 "12:00:01"]))
      is_on speed setpoint ∧
    read_field (program (@run headless (@boot headless tt)
                           [ClickLight "12:00:00"; SlideFan 2 "12:00:01"]))
      "door1" "locked" = Some (VBool locked).
Proof.
  destruct (@details_page_shows_state headless tt
              [ClickLight "12:00:00"; SlideFan 2 "12:00:01"])
    as (is_on & speed & setpoint & locked & Hreg & Hlock & _).
  - repeat constructor.
  - exists is_on, speed, setpoint, locked. split; assumption.
Defined.

Section FanRange.
Context `{Platform}.

Lemma run_in_domain (sys : System) (evs : list Event) :
  Forall from_widgets evs →
  well_typed (program sys) → in_domain (program sys) →
  in_domain (program (run sys evs)).
Proof.
  revert sys. induction evs as [|ev evs IH]; intros sys Hevs Hwt Hdom;
    [exact Hdom|].
  apply Forall_cons in Hevs as [Hev Hevs]. rewrite run_cons.
  apply IH; [exact Hevs | by apply step_well_typed | by apply step_in_domain].
Qed.
End FanRange.

(** X17.  The declared fan domain is an invariant of the running
    program: in every run from the start in which the fan slider reports
    only its own positions 0, 1, 2, 3, whatever else happens, the fan's
    speed is an int between 0 and 3, and the power reading succeeds with
    a value between 0 and 600 watts. *)
Theorem fan_speed_stays_in_range `{Platform} (u : UI) (evs : list Event) :
  Forall from_widgets evs →
  ∃ (is_on : bool) (speed : Z) (setpoint : float),
    registry (program (run (boot u) evs)) is_on speed setpoint ∧
    (0 ≤ speed ≤ 3)%Z ∧
    outcome compute_total_power (program (run (boot u) evs))
    = Ok (totalPower is_on speed setpoint) ∧
    (0 <=? totalPower is_on speed setpoint)%float = true ∧
    (totalPower is_on speed setpoint <=? 600)%float = true.
Proof.
  intros Hevs. destruct (boot_in_domain u) as [Hwt Hdom].
  destruct (run_in_domain (boot u) evs Hevs Hwt Hdom)
    as (is_on & speed & setpoint & Hreg & Hs).
  exists is_on, speed, setpoint. do 2 (split; [done|]). split.
  - unfold outcome.
    by rewrite (compute_total_power_domain _ _ _ _ Hreg Hs).
  - unfold totalPower, thermostat_watts, light_watts, fan_watts, door_watts.
    destruct (20 <? setpoint)%float;
      destruct (small_speed speed Hs) as [-> | [-> | [-> | ->]]];
      destruct is_on; split; vm_compute; reflexivity.
Qed.

Lemma fan_speed_stays_in_range_witness :
  ∃ (is_on : bool) (speed : Z) (setpoint : float),
    registry (program (@run headless (@boot headless tt)
                         [SlideFan 3 "12:00:00"; Tick]))
      is_on speed setpoint ∧ (0 ≤ speed ≤ 3)%Z.
Proof.
  destruct (@fan_speed_stays_in_range headless tt
              [SlideFan 3 "12:00:00"; Tick])
    as (is_on & speed & setpoint & Hreg & Hs & _).
  - repeat (constructor; [cbn; auto|]). constructor.
  - exists is_on, speed, setpoint. split; assumption.
Defined.

(** X18.  The navigation bar never highlights both tabs: whatever the
    current route, the Overview button and the Statistics button are not
    both blue, and a route that starts with neither ["/overview"] nor
    ["/statistics"] (as ["/device"] does) leaves both black. *)
Theorem appbar_highlights_at_most_one (current_route : string) :
  ¬ (overview_color (build_appbar current_route) = BLUE ∧
     statistics_color (build_appbar current_route) = BLUE) ∧
  (String.prefix "/overview" current_route = false →
   String.prefix "/statistics" current_route = false →
   build_appbar current_route = mkAppBar BLACK BLACK).
Proof.
  split.
  - unfold build_appbar. cbn [overview_color statistics_color].
    destruct current_route as [|c1 [|c2 r]]; cbn [String.prefix];
      repeat match goal with
        | |- context [Ascii.ascii_dec ?a ?b] =>
            destruct (Ascii.ascii_dec a b) as [<-|?]
        end;
      intros [? ?]; discriminate.
  - intros Ho Hs. unfold build_appbar. by rewrite Ho, Hs.
Qed.

Lemma appbar_highlights_at_most_one_witness :
  build_appbar "/device" = mkAppBar BLACK BLACK.
Proof.
  apply (appbar_highlights_at_most_one "/device"); reflexivity.
Defined.

(** ** The sliders *)

Section Sliders.
Context `{Platform}.

(** The part of a slider callback after the write to [devices]. *)
Lemma slider_tail (st : State) (show : WidgetOp) (id action now : string) :
  let m := bind (call_widget show) (λ _, publish_log id action now) in
  outcome m st = fst (widget show (ui st)) ∧
  devices (exec m st) = devices st ∧
  (fst (widget show (ui st)) = Ok tt →
   bus_trace (exec m st) = bus_trace st ++ [log_message id action now]) ∧
  (∀ e, fst (widget show (ui st)) = Raise e →
        bus_trace (exec m st) = bus_trace st).
Proof.
  cbv zeta. unfold outcome, exec, bind, call_widget.
  destruct (widget show (ui st)) as [[[]|e] u] eqn:Hw; cbn [fst snd].
  - destruct (publish_log_effect (set_ui u st) id action now)
      as (Hout & Hdev & _ & _ & Hbus).
    unfold outcome, exec in Hout, Hdev, Hbus.
    rewrite Hout, Hdev, Hbus. done.
  - repeat split; try done.
Qed.
End Sliders.

(** X19.  The thermostat callback stores the slider value as it is,
    whatever float it is, without any range check: the setpoint of
    ["thermo1"] becomes that value and no other field of any device
    changes.  It raises only if the text update of the widget layer
    does; when that update succeeds, one message for ["thermo1"] with
    the action "Set <value to one decimal> °C" is handed to the bus, and
    when it raises nothing is published although the setpoint was
    written. *)
Theorem thermostat_stores_value `{Platform} (st : State) (value : float)
    (now : string) (thermo : PyDict) :
  devices st !! "thermo1" = Some thermo →
  let show := SliderShow "thermo1"
                ("Set point: " ++ format_1f value ++ " °C")%string in
  devices (exec (on_change_thermostat value now) st)
  = <["thermo1" := <["setpoint" := VFloat value]> thermo]> (devices st) ∧
  outcome (on_change_thermostat value now) st = fst (widget show (ui st)) ∧
  (fst (widget show (ui st)) = Ok tt →
   bus_trace (exec (on_change_thermostat value now) st)
   = bus_trace st
     ++ [log_message "thermo1" ("Set " ++ format_1f value ++ " °C")%string
           now]) ∧
  (∀ e, fst (widget show (ui st)) = Raise e →
        bus_trace (exec (on_change_thermostat value now) st) = bus_trace st).
Proof.
  intros Hd show.
  assert (Htail : on_change_thermostat value now st
                  = bind (call_widget show)
                      (λ _, publish_log "thermo1"
                              ("Set " ++ format_1f value ++ " °C")%string now)
                      (set_devices
                         (<["thermo1" := <["setpoint" := VFloat value]> thermo]>
                            (devices st)) st)).
  { unfold on_change_thermostat.
    by rewrite (bind_ok _ _ _ _ _ (device_set_ok _ _ _ _ _ Hd)). }
  match type of Htail with _ = bind _ _ ?s =>
    destruct (slider_tail s show "thermo1"
                ("Set " ++ format_1f value ++ " °C")%string now)
      as (Hout & Hdev & Hok & Hraise) end.
  cbv zeta in Hout, Hdev, Hok, Hraise. unfold exec, outcome in *.
  rewrite Htail. done.
Qed.

Lemma thermostat_stores_value_witness :
  devices (@exec headless _ (on_change_thermostat 45 "12:00:00")
             (registry_with true 2 22))
  = <["thermo1" := <["setpoint" := VFloat 45]>
                     (<["setpoint" := VFloat 22]> thermo1_dict)]>
      (devices (registry_with true 2 22)).
Proof.
  apply (@thermostat_stores_value headless (registry_with true 2 22)
           45%float "12:00:00" (<["setpoint" := VFloat 22]> thermo1_dict)).
  reflexivity.
Defined.

(** X20.  The fan callback publishes the speed it stored.  When the
    slider value converts to the int [z] and the text update succeeds,
    one message for ["fan1"] with the action "Set speed z" is handed to
    the bus; when the text update raises, the speed was written and
    nothing is published; when the value does not convert, nothing is
    written and nothing is published. *)
Theorem fan_logs_stored_speed `{Platform} (st : State) (value : float)
    (now : string) (fan : PyDict) :
  devices st !! "fan1" = Some fan →
  (∀ z : Z,
     py_int_of_float value = Ok z →
     let show := SliderShow "fan1" ("Fan speed: " ++ pretty z)%string in
     (fst (widget show (ui st)) = Ok tt →
      bus_trace (exec (on_change_fan value now) st)
      = bus_trace st
        ++ [log_message "fan1" ("Set speed " ++ pretty z)%string now])
     ∧
     (∀ e, fst (widget show (ui st)) = Raise e →
           bus_trace (exec (on_change_fan value now) st) = bus_trace st ∧
           read_field (exec (on_change_fan value now) st) "fan1" "speed"
           = Some (VInt z))) ∧
  (∀ e : PyExc,
     py_int_of_float value = Raise e →
     exec (on_change_fan value now) st = st).
Proof.
  intros Hd. split.
  - intros z Hz show.
    assert (Htail : on_change_fan value now st
                    = bind (call_widget show)
                        (λ _, publish_log "fan1"
                                ("Set speed " ++ pretty z)%string now)
                        (set_devices
                           (<["fan1" := <["speed" := VInt z]> fan]>
                              (devices st)) st)).
    { unfold on_change_fan.
      rewrite (bind_ok _ _ st st z) by (unfold lift; by rewrite Hz).
      by rewrite (bind_ok _ _ _ _ _ (device_set_ok _ _ _ _ _ Hd)). }
    pose proof (on_change_fan_devices st value now fan z Hz Hd) as Hdev'.
    match type of Htail with _ = bind _ _ ?s =>
      destruct (slider_tail s show "fan1"
                  ("Set speed " ++ pretty z)%string now)
        as (_ & _ & Hok & Hraise) end.
    cbv zeta in Hok, Hraise. unfold exec in Hok, Hraise.
    split.
    + intros Hw. unfold exec. rewrite Htail. by apply Hok.
    + intros e He. split.
      * unfold exec. rewrite Htail. by apply (Hraise e).
      * by apply (read_field_written st _ "fan1" "speed" _ fan Hd).
  - intros e He. unfold exec. by rewrite (on_change_fan_raise st value now e He).
Qed.

Lemma fan_logs_stored_speed_witness :
  bus_trace (@exec headless _ (on_change_fan 2 "12:00:00")
               (registry_with true 0 22))
  = bus_trace (registry_with true 0 22)
    ++ [log_message "fan1" "Set speed 2" "12:00:00"].
Proof.
  destruct (@fan_logs_stored_speed headless (registry_with true 0 22)
              2%float "12:00:00" (<["speed" := VInt 0]> fan1_dict) eq_refl)
    as [Hok _].
  destruct (Hok 2%Z eq_refl) as [Hlog _].
  apply Hlog. reflexivity.
Defined.
